(** * UbershaderLoader: material-variant cache and parameter binding

    A shallow embedding of [libs/gltfio/src/UbershaderLoader.cpp]: the
    loader keeps one compiled [Material] per distinct [MaterialKey] in a
    hash map, and binds the per-instance parameters (UV indices, UV
    matrices, blend flag) on every [createMaterialInstance] call. *)

From stdpp Require Import base numbers option list strings countable gmap vector.

Local Open Scope Z_scope.
Local Open Scope string_scope.

(** ** Data model *)

(** A C++ [float], kept as its IEEE-754 binary32 bit pattern.  The loader
    never computes with floats, it only stores, compares and forwards them. *)
Definition float : Type := Z.
Definition float_0 : float := 0.
Definition float_1 : float := 1065353216. (* 0x3F800000 *)

Definition float3 : Type := float * float * float.
Definition float4 : Type := float * float * float * float.

(** [filament::math::mat3f], column major. *)
Record mat3f : Type := Mat3f { col0 : float3; col1 : float3; col2 : float3 }.

(** The default constructor of [mat3f] (line 231) builds the identity. *)
Definition mat3f_identity : mat3f :=
  Mat3f (float_1, float_0, float_0) (float_0, float_1, float_0) (float_0, float_0, float_1).

Inductive AlphaMode : Type := OPAQUE | MASK | BLEND.

(** Modelled from the spec: the declaration of [MaterialKey] lives in
    [gltfio/MaterialProvider.h].  The fields are those of the data model;
    [uint8_t] fields are [N].  Keys are compared field by field, bit-exactly,
    which is Leibniz equality on this record. *)
Record MaterialKey : Type := {
  doubleSided : bool;
  unlit : bool;
  alphaMode : AlphaMode;
  alphaMaskThreshold : float;
  hasBaseColorTexture : bool;
  hasNormalTexture : bool;
  hasMetallicRoughnessTexture : bool;
  hasOcclusionTexture : bool;
  hasEmissiveTexture : bool;
  baseColorUV : N;
  normalUV : N;
  metallicRoughnessUV : N;
  aoUV : N;
  emissiveUV : N;
  baseColorFactor : float4;
  metallicFactor : float;
  roughnessFactor : float;
  normalScale : float;
  aoStrength : float;
  emissiveFactor : float3
}.

(** Modelled from the spec: [UvMap] is declared in [gltfio/MaterialProvider.h];
    line 155 asserts its size.  Eight entries, each the shader-visible slot of
    one source UV set: 0 (unused), 1 or 2. *)
Definition UvSet : Type := N.
Definition UvMap : Type := vec UvSet 8.

(** [std::array::at]: bounds checked. *)
Definition UvMap_at (uvmap : UvMap) (srcIndex : N) : option UvSet :=
  vec_to_list uvmap !! N.to_nat srcIndex.

(** [operator[]] at a constant position below 8. *)
Definition UvMap_get (uvmap : UvMap) (i : fin 8) : UvSet := uvmap !!! i.

Global Instance AlphaMode_eq_dec : EqDecision AlphaMode.
Proof. solve_decision. Defined.

Global Instance mat3f_eq_dec : EqDecision mat3f.
Proof. solve_decision. Defined.

Global Instance MaterialKey_eq_dec : EqDecision MaterialKey.
Proof. solve_decision. Defined.

Definition AlphaMode_to_nat (a : AlphaMode) : nat :=
  match a with OPAQUE => 0 | MASK => 1 | BLEND => 2 end%nat.

Definition AlphaMode_of_nat (n : nat) : option AlphaMode :=
  match n with
  | O => Some OPAQUE
  | S O => Some MASK
  | S (S O) => Some BLEND
  | _ => None
  end.

Global Program Instance AlphaMode_countable : Countable AlphaMode :=
  inj_countable AlphaMode_to_nat AlphaMode_of_nat _.
Next Obligation. by intros []. Qed.

(** The key as the sequence of its fields, by which keys are enumerated. *)
Definition MaterialKey_fields (k : MaterialKey)
    : AlphaMode * list bool * list N * list float :=
  (alphaMode k,
   [doubleSided k; unlit k; hasBaseColorTexture k; hasNormalTexture k;
    hasMetallicRoughnessTexture k; hasOcclusionTexture k; hasEmissiveTexture k],
   [baseColorUV k; normalUV k; metallicRoughnessUV k; aoUV k; emissiveUV k],
   [alphaMaskThreshold k;
    (baseColorFactor k).1.1.1; (baseColorFactor k).1.1.2;
    (baseColorFactor k).1.2; (baseColorFactor k).2;
    metallicFactor k; roughnessFactor k; normalScale k; aoStrength k;
    (emissiveFactor k).1.1; (emissiveFactor k).1.2; (emissiveFactor k).2]).

Definition MaterialKey_of_fields
    (t : AlphaMode * list bool * list N * list float) : option MaterialKey :=
  match t with
  | (am, [ds; ul; hb; hn; hm; ho; he], [ub; un; um; ua; ue],
     [thr; b0; b1; b2; b3; fm; fr; fn; fa; e0; e1; e2]) =>
      Some {| doubleSided := ds; unlit := ul; alphaMode := am;
              alphaMaskThreshold := thr;
              hasBaseColorTexture := hb; hasNormalTexture := hn;
              hasMetallicRoughnessTexture := hm; hasOcclusionTexture := ho;
              hasEmissiveTexture := he;
              baseColorUV := ub; normalUV := un; metallicRoughnessUV := um;
              aoUV := ua; emissiveUV := ue;
              baseColorFactor := (b0, b1, b2, b3);
              metallicFactor := fm; roughnessFactor := fr; normalScale := fn;
              aoStrength := fa; emissiveFactor := (e0, e1, e2) |}
  | _ => None
  end.

Global Program Instance MaterialKey_countable : Countable MaterialKey :=
  inj_countable MaterialKey_fields MaterialKey_of_fields _.
Next Obligation. by intros [? ? ? ? ? ? ? ? ? ? ? ? ? ? [[[? ?] ?] ?] ? ? ? ? [[? ?] ?]]. Qed.

(** ** The shader backend: [filamat::MaterialBuilder] and the engine

    Both are external to this file.  The builder is the record of the settings
    it was given, each unset until its setter is called; the engine hands out
    handles and remembers what it was asked to build and destroy. *)

Inductive VertexAttribute : Type := UV0 | UV1 | COLOR.
Inductive Shading : Type := UNLIT | LIT.

Module MaterialBuilder.

Inductive UniformType : Type := INT | FLOAT | FLOAT3 | FLOAT4 | MAT3 | BOOL.
Inductive SamplerType : Type := SAMPLER_2D.
Inductive ParameterType : Type :=
| Uniform (u : UniformType)
| Sampler (s : SamplerType).
Inductive BlendingMode : Type := OPAQUE | MASKED | TRANSPARENT.

Record t : Type := {
  mName : option string;
  mFlipUV : option bool;
  mMaterialCode : option string;
  mDoubleSided : option bool;
  mRequiredAttributes : list VertexAttribute;
  mParameters : list (ParameterType * string);
  mBlendingMode : option BlendingMode;
  mMaskThreshold : option float;
  mDepthWrite : option bool;
  mShading : option Shading
}.

(** [MaterialBuilder()] *)
Definition new : t :=
  {| mName := None; mFlipUV := None; mMaterialCode := None; mDoubleSided := None;
     mRequiredAttributes := []; mParameters := [];
     mBlendingMode := None; mMaskThreshold := None; mDepthWrite := None;
     mShading := None |}.

Definition name (n : string) (b : t) : t :=
  {| mName := Some n; mFlipUV := mFlipUV b; mMaterialCode := mMaterialCode b;
     mDoubleSided := mDoubleSided b; mRequiredAttributes := mRequiredAttributes b;
     mParameters := mParameters b; mBlendingMode := mBlendingMode b;
     mMaskThreshold := mMaskThreshold b; mDepthWrite := mDepthWrite b;
     mShading := mShading b |}.

Definition flipUV (f : bool) (b : t) : t :=
  {| mName := mName b; mFlipUV := Some f; mMaterialCode := mMaterialCode b;
     mDoubleSided := mDoubleSided b; mRequiredAttributes := mRequiredAttributes b;
     mParameters := mParameters b; mBlendingMode := mBlendingMode b;
     mMaskThreshold := mMaskThreshold b; mDepthWrite := mDepthWrite b;
     mShading := mShading b |}.

Definition material (code : string) (b : t) : t :=
  {| mName := mName b; mFlipUV := mFlipUV b; mMaterialCode := Some code;
     mDoubleSided := mDoubleSided b; mRequiredAttributes := mRequiredAttributes b;
     mParameters := mParameters b; mBlendingMode := mBlendingMode b;
     mMaskThreshold := mMaskThreshold b; mDepthWrite := mDepthWrite b;
     mShading := mShading b |}.

Definition doubleSided (d : bool) (b : t) : t :=
  {| mName := mName b; mFlipUV := mFlipUV b; mMaterialCode := mMaterialCode b;
     mDoubleSided := Some d; mRequiredAttributes := mRequiredAttributes b;
     mParameters := mParameters b; mBlendingMode := mBlendingMode b;
     mMaskThreshold := mMaskThreshold b; mDepthWrite := mDepthWrite b;
     mShading := mShading b |}.

Definition require (a : VertexAttribute) (b : t) : t :=
  {| mName := mName b; mFlipUV := mFlipUV b; mMaterialCode := mMaterialCode b;
     mDoubleSided := mDoubleSided b;
     mRequiredAttributes := mRequiredAttributes b ++ [a];
     mParameters := mParameters b; mBlendingMode := mBlendingMode b;
     mMaskThreshold := mMaskThreshold b; mDepthWrite := mDepthWrite b;
     mShading := mShading b |}.

Definition parameter (ty : ParameterType) (n : string) (b : t) : t :=
  {| mName := mName b; mFlipUV := mFlipUV b; mMaterialCode := mMaterialCode b;
     mDoubleSided := mDoubleSided b; mRequiredAttributes := mRequiredAttributes b;
     mParameters := mParameters b ++ [(ty, n)];
     mBlendingMode := mBlendingMode b;
     mMaskThreshold := mMaskThreshold b; mDepthWrite := mDepthWrite b;
     mShading := mShading b |}.

Definition blending (m : BlendingMode) (b : t) : t :=
  {| mName := mName b; mFlipUV := mFlipUV b; mMaterialCode := mMaterialCode b;
     mDoubleSided := mDoubleSided b; mRequiredAttributes := mRequiredAttributes b;
     mParameters := mParameters b; mBlendingMode := Some m;
     mMaskThreshold := mMaskThreshold b; mDepthWrite := mDepthWrite b;
     mShading := mShading b |}.

Definition maskThreshold (th : float) (b : t) : t :=
  {| mName := mName b; mFlipUV := mFlipUV b; mMaterialCode := mMaterialCode b;
     mDoubleSided := mDoubleSided b; mRequiredAttributes := mRequiredAttributes b;
     mParameters := mParameters b; mBlendingMode := mBlendingMode b;
     mMaskThreshold := Some th; mDepthWrite := mDepthWrite b;
     mShading := mShading b |}.

Definition depthWrite (w : bool) (b : t) : t :=
  {| mName := mName b; mFlipUV := mFlipUV b; mMaterialCode := mMaterialCode b;
     mDoubleSided := mDoubleSided b; mRequiredAttributes := mRequiredAttributes b;
     mParameters := mParameters b; mBlendingMode := mBlendingMode b;
     mMaskThreshold := mMaskThreshold b; mDepthWrite := Some w;
     mShading := mShading b |}.

Definition shading (s : Shading) (b : t) : t :=
  {| mName := mName b; mFlipUV := mFlipUV b; mMaterialCode := mMaterialCode b;
     mDoubleSided := mDoubleSided b; mRequiredAttributes := mRequiredAttributes b;
     mParameters := mParameters b; mBlendingMode := mBlendingMode b;
     mMaskThreshold := mMaskThreshold b; mDepthWrite := mDepthWrite b;
     mShading := Some s |}.

End MaterialBuilder.

(** A [Material*]: the handle the engine gave out, the position of the
    material in the engine's list. *)
Definition Material : Type := nat.

(** What a material was built from. *)
Inductive Package : Type :=
| GLTFRESOURCES_UBERSHADER_DATA
| BuiltPackage (b : MaterialBuilder.t).

Record Engine : Type := {
  (** every [builder.build()] so far, oldest first, failed ones included *)
  builds : list MaterialBuilder.t;
  (** every material built so far; a handle is a position in this list *)
  materials : list Package;
  (** the handles passed to [destroy] *)
  destroyed : list Material;
  (** the number of [createInstance] calls *)
  instances : nat
}.

Inductive ParameterValue : Type :=
| PInt (i : Z)
| PBool (b : bool)
| PMat3 (m : mat3f).

(** A [MaterialInstance]: the material it belongs to and the parameters set
    on it so far; a parameter nobody set keeps the backend's default. *)
Record MaterialInstance : Type := {
  instanceOf : Material;
  parameters : gmap string ParameterValue
}.

Definition setParameter (name : string) (v : ParameterValue) (mi : MaterialInstance)
    : MaterialInstance :=
  {| instanceOf := instanceOf mi; parameters := <[name := v]> (parameters mi) |}.

(** ** The loader *)

Record UbershaderLoader : Type := {
  mCache : gmap MaterialKey Material;
  mMaterial : Material;
  mMaterials : list Material;
  mEngine : Engine
}.

(** What a call can throw. *)
Inductive error : Type :=
| CompilationFailure   (* the backend rejected the builder *)
| out_of_range.        (* [std::array::at] *)

Inductive result (A : Type) : Type :=
| Ok (a : A)
| Throw (e : error).
Arguments Ok {A} a.
Arguments Throw {A} e.

(** Loader methods: an outcome and the loader as the call left it. *)
Definition M (A : Type) : Type := UbershaderLoader -> result A * UbershaderLoader.

Definition ret {A} (a : A) : M A := fun s => (Ok a, s).
Definition throw {A} (e : error) : M A := fun s => (Throw e, s).
Definition bind {A B} (c : M A) (k : A -> M B) : M B :=
  fun s => match c s with
           | (Ok a, s') => k a s'
           | (Throw e, s') => (Throw e, s')
           end.
Definition lift {A} (r : result A) : M A := fun s => (r, s).

Notation "'do' x <- c ; k" := (bind c (fun x => k))
  (at level 10, x name, c at level 100, k at level 200).
Notation "c ;; k" := (bind c (fun _ : unit => k))
  (at level 100, k at level 200, right associativity).

(** Lines 90-143.  The text is a raw string literal: it does not read
    [config]. *)
Definition shaderFromKey (config : MaterialKey) : string :=
  "
        void material(inout MaterialInputs material) {
            float2 uvs[2] = { getUV0(), getUV1() };
            #if !defined(SHADING_MODEL_UNLIT)
                if (materialParams.normalIndex > -1) {
                    float2 uv = uvs[materialParams.normalIndex];
                    uv = (vec3(uv, 1.0) * materialParams.normalUvMatrix).xy;
                    material.normal = texture(materialParams_normalMap, uv).xyz * 2.0 - 1.0;
                    material.normal.y = -material.normal.y;
                    material.normal.xy *= materialParams.normalScale;
                }
            #endif
            prepareMaterial(material);
            material.baseColor = materialParams.baseColorFactor;
            if (materialParams.baseColorIndex > -1) {
                float2 uv = uvs[materialParams.baseColorIndex];
                uv = (vec3(uv, 1.0) * materialParams.baseColorUvMatrix).xy;
                material.baseColor *= texture(materialParams_baseColorMap, uv);
            }

            if (materialParams.blendEnabled) {
                material.baseColor.rgb *= material.baseColor.a;
            }

            material.baseColor *= getColor();

            #if !defined(SHADING_MODEL_UNLIT)
                material.roughness = materialParams.roughnessFactor;
                material.metallic = materialParams.metallicFactor;
                material.emissive.rgb = materialParams.emissiveFactor.rgb;
                material.emissive.a = 3.0;
                if (materialParams.metallicRoughnessIndex > -1) {
                    float2 uv = uvs[materialParams.metallicRoughnessIndex];
                    uv = (vec3(uv, 1.0) * materialParams.metallicRoughnessUvMatrix).xy;
                    vec4 roughness = texture(materialParams_metallicRoughnessMap, uv);
                    material.roughness *= roughness.g;
                    material.metallic *= roughness.b;
                }
                if (materialParams.aoIndex > -1) {
                    float2 uv = uvs[materialParams.aoIndex];
                    uv = (vec3(uv, 1.0) * materialParams.occlusionUvMatrix).xy;
                    material.ambientOcclusion = texture(materialParams_occlusionMap, uv).r *
                            materialParams.aoStrength;
                }
                if (materialParams.emissiveIndex > -1) {
                    float2 uv = uvs[materialParams.emissiveIndex];
                    uv = (vec3(uv, 1.0) * materialParams.emissiveUvMatrix).xy;
                    material.emissive.rgb *= texture(materialParams_emissiveMap, uv).rgb;
                }
            #endif
        }
    ".

(** [getUvIndex], the lambda of lines 220-222: the map is read, with its
    bounds check, only under [hasTexture]. *)
Definition getUvIndex (uvmap : UvMap) (srcIndex : N) (hasTexture : bool) : result Z :=
  if hasTexture then
    match UvMap_at uvmap srcIndex with
    | Some slot => Ok (Z.of_N slot - 1)
    | None => Throw out_of_range
    end
  else Ok (-1).

(** Lines 156-159, [std::max] over the eight entries. *)
Definition numTextures (uvmap : UvMap) : Z :=
  Z.of_N (foldr N.max 0%N
    [UvMap_get uvmap 0%fin; UvMap_get uvmap 1%fin; UvMap_get uvmap 2%fin;
     UvMap_get uvmap 3%fin; UvMap_get uvmap 4%fin; UvMap_get uvmap 5%fin;
     UvMap_get uvmap 6%fin; UvMap_get uvmap 7%fin]).

(** Lines 148-209 of [createMaterial]: the builder as it stands when
    [build] is called. *)
Definition configureBuilder (config : MaterialKey) (uvmap : UvMap) (name : string)
    : MaterialBuilder.t :=
  let shader := shaderFromKey config in
  let builder := MaterialBuilder.new in
  let builder := MaterialBuilder.name name builder in
  let builder := MaterialBuilder.flipUV false builder in
  let builder := MaterialBuilder.material shader builder in
  let builder := MaterialBuilder.doubleSided (doubleSided config) builder in
  let numTextures := numTextures uvmap in
  let builder := MaterialBuilder.require UV0 builder in
  let builder := MaterialBuilder.require UV1 builder in
  let builder := MaterialBuilder.require COLOR builder in
  (* BASE COLOR *)
  let builder := MaterialBuilder.parameter (MaterialBuilder.Uniform MaterialBuilder.INT) "baseColorIndex" builder in
  let builder := MaterialBuilder.parameter (MaterialBuilder.Uniform MaterialBuilder.FLOAT4) "baseColorFactor" builder in
  let builder := MaterialBuilder.parameter (MaterialBuilder.Sampler MaterialBuilder.SAMPLER_2D) "baseColorMap" builder in
  let builder := MaterialBuilder.parameter (MaterialBuilder.Uniform MaterialBuilder.MAT3) "baseColorUvMatrix" builder in
  let builder := MaterialBuilder.parameter (MaterialBuilder.Uniform MaterialBuilder.BOOL) "blendEnabled" builder in
  (* METALLIC-ROUGHNESS *)
  let builder := MaterialBuilder.parameter (MaterialBuilder.Uniform MaterialBuilder.INT) "metallicRoughnessIndex" builder in
  let builder := MaterialBuilder.parameter (MaterialBuilder.Uniform MaterialBuilder.FLOAT) "metallicFactor" builder in
  let builder := MaterialBuilder.parameter (MaterialBuilder.Uniform MaterialBuilder.FLOAT) "roughnessFactor" builder in
  let builder := MaterialBuilder.parameter (MaterialBuilder.Sampler MaterialBuilder.SAMPLER_2D) "metallicRoughnessMap" builder in
  let builder := MaterialBuilder.parameter (MaterialBuilder.Uniform MaterialBuilder.MAT3) "metallicRoughnessUvMatrix" builder in
  (* NORMAL MAP *)
  let builder := MaterialBuilder.parameter (MaterialBuilder.Uniform MaterialBuilder.INT) "normalIndex" builder in
  let builder := MaterialBuilder.parameter (MaterialBuilder.Uniform MaterialBuilder.FLOAT) "normalScale" builder in
  let builder := MaterialBuilder.parameter (MaterialBuilder.Sampler MaterialBuilder.SAMPLER_2D) "normalMap" builder in
  let builder := MaterialBuilder.parameter (MaterialBuilder.Uniform MaterialBuilder.MAT3) "normalUvMatrix" builder in
  (* AMBIENT OCCLUSION *)
  let builder := MaterialBuilder.parameter (MaterialBuilder.Uniform MaterialBuilder.INT) "aoIndex" builder in
  let builder := MaterialBuilder.parameter (MaterialBuilder.Uniform MaterialBuilder.FLOAT) "aoStrength" builder in
  let builder := MaterialBuilder.parameter (MaterialBuilder.Sampler MaterialBuilder.SAMPLER_2D) "occlusionMap" builder in
  let builder := MaterialBuilder.parameter (MaterialBuilder.Uniform MaterialBuilder.MAT3) "occlusionUvMatrix" builder in
  (* EMISSIVE *)
  let builder := MaterialBuilder.parameter (MaterialBuilder.Uniform MaterialBuilder.INT) "emissiveIndex" builder in
  let builder := MaterialBuilder.parameter (MaterialBuilder.Uniform MaterialBuilder.FLOAT3) "emissiveFactor" builder in
  let builder := MaterialBuilder.parameter (MaterialBuilder.Sampler MaterialBuilder.SAMPLER_2D) "emissiveMap" builder in
  let builder := MaterialBuilder.parameter (MaterialBuilder.Uniform MaterialBuilder.MAT3) "emissiveUvMatrix" builder in
  let builder :=
    match alphaMode config with
    | OPAQUE => MaterialBuilder.blending MaterialBuilder.OPAQUE builder
    | MASK =>
        let builder := MaterialBuilder.blending MaterialBuilder.MASKED builder in
        MaterialBuilder.maskThreshold (alphaMaskThreshold config) builder
    | BLEND =>
        let builder := MaterialBuilder.blending MaterialBuilder.TRANSPARENT builder in
        MaterialBuilder.depthWrite true builder
    end in
  MaterialBuilder.shading (if unlit config then UNLIT else LIT) builder.

Definition set_mCache (c : gmap MaterialKey Material) (s : UbershaderLoader) : UbershaderLoader :=
  {| mCache := c; mMaterial := mMaterial s; mMaterials := mMaterials s; mEngine := mEngine s |}.
Definition set_mMaterials (l : list Material) (s : UbershaderLoader) : UbershaderLoader :=
  {| mCache := mCache s; mMaterial := mMaterial s; mMaterials := l; mEngine := mEngine s |}.
Definition set_mEngine (e : Engine) (s : UbershaderLoader) : UbershaderLoader :=
  {| mCache := mCache s; mMaterial := mMaterial s; mMaterials := mMaterials s; mEngine := e |}.

(** [mCache.find(key)]; [None] is [mCache.end()]. *)
Definition find (key : MaterialKey) : M (option Material) :=
  fun s => (Ok (mCache s !! key), s).

(** [mCache.emplace]: a key already present keeps its value. *)
Definition emplace (key : MaterialKey) (material : Material) : M unit :=
  fun s => (Ok tt,
            match mCache s !! key with
            | Some _ => s
            | None => set_mCache (<[key := material]> (mCache s)) s
            end).

(** [mMaterials.push_back] *)
Definition push_back (material : Material) : M unit :=
  fun s => (Ok tt, set_mMaterials (mMaterials s ++ [material]) s).

(** A call on [mEngine]. *)
Definition onEngine {A} (f : Engine -> result A * Engine) : M A :=
  fun s => let '(r, e) := f (mEngine s) in (r, set_mEngine e s).

(** [Material::Builder().package(data, size).build(engine)] for a package
    that is known to load. *)
Definition Engine_load (p : Package) (engine : Engine) : Material * Engine :=
  (length (materials engine),
   {| builds := builds engine; materials := materials engine ++ [p];
      destroyed := destroyed engine; instances := instances engine |}).

(** [engine->destroy(material)] *)
Definition Engine_destroy (engine : Engine) (material : Material) : Engine :=
  {| builds := builds engine; materials := materials engine;
     destroyed := destroyed engine ++ [material]; instances := instances engine |}.

(** [material->createInstance()]: one new instance, no parameter set. *)
Definition createInstance (material : Material) : M MaterialInstance :=
  onEngine (fun engine =>
    (Ok {| instanceOf := material; parameters := ∅ |},
     {| builds := builds engine; materials := materials engine;
        destroyed := destroyed engine; instances := S (instances engine) |})).

(** Lines 63-68. *)
Definition UbershaderLoader_new (engine : Engine) : UbershaderLoader :=
  let '(material, engine) := Engine_load GLTFRESOURCES_UBERSHADER_DATA engine in
  {| mCache := ∅; mMaterial := material; mMaterials := []; mEngine := engine |}.

(** Lines 74-76. *)
Definition getMaterialsCount (s : UbershaderLoader) : nat := length (mMaterials s).

(** Lines 78-80. *)
Definition getMaterials (s : UbershaderLoader) : list Material := mMaterials s.

(** Lines 82-88. *)
Definition destroyMaterials (s : UbershaderLoader) : UbershaderLoader :=
  let engine := foldl (fun e iter => Engine_destroy e iter.2) (mEngine s)
                      (map_to_list (mCache s)) in
  {| mCache := ∅; mMaterial := mMaterial s; mMaterials := []; mEngine := engine |}.

Module details.

(** Whether a source UV set has one of the two shader-visible slots. *)
Definition sampleable (uvmap : UvMap) (uv : N) : bool :=
  match UvMap_at uvmap uv with
  | Some slot => bool_decide (slot ≠ 0 ∧ slot ≤ 2)%N
  | None => false
  end.

(** Whether an enabled channel of [key] reads source UV set [uv]. *)
Definition readBy (key : MaterialKey) (uv : N) : bool :=
  hasBaseColorTexture key && bool_decide (baseColorUV key = uv)
  || hasNormalTexture key && bool_decide (normalUV key = uv)
  || hasMetallicRoughnessTexture key && bool_decide (metallicRoughnessUV key = uv)
  || hasOcclusionTexture key && bool_decide (aoUV key = uv)
  || hasEmissiveTexture key && bool_decide (emissiveUV key = uv).

(** The map with the entry of every UV set that no enabled channel of [key]
    reads set to 0, unused. *)
Definition clearUnread (key : MaterialKey) (uvmap : UvMap) : UvMap :=
  fun_to_vec (λ i : fin 8,
    if readBy key (N.of_nat (fin_to_nat i)) then uvmap !!! i else 0%N).

(** Modelled from the spec: [gltfio::details::constrainMaterial] is defined
    outside this file.  A channel whose UV set has no shader-visible slot (its
    entry is 0, is beyond the two slots, or the set is not one of the eight)
    is disabled.  Both arguments are rewritten: the UV index of a disabled
    channel becomes 0, so that keys which differ only there are one key, and
    the entry of a UV set that no enabled channel reads becomes 0. *)
Definition constrainMaterial (key : MaterialKey) (uvmap : UvMap) : MaterialKey * UvMap :=
  let hasBaseColor := hasBaseColorTexture key && sampleable uvmap (baseColorUV key) in
  let hasNormal := hasNormalTexture key && sampleable uvmap (normalUV key) in
  let hasMetallicRoughness :=
    hasMetallicRoughnessTexture key && sampleable uvmap (metallicRoughnessUV key) in
  let hasOcclusion := hasOcclusionTexture key && sampleable uvmap (aoUV key) in
  let hasEmissive := hasEmissiveTexture key && sampleable uvmap (emissiveUV key) in
  let key' :=
    {| doubleSided := doubleSided key; unlit := unlit key;
       alphaMode := alphaMode key; alphaMaskThreshold := alphaMaskThreshold key;
       hasBaseColorTexture := hasBaseColor;
       hasNormalTexture := hasNormal;
       hasMetallicRoughnessTexture := hasMetallicRoughness;
       hasOcclusionTexture := hasOcclusion;
       hasEmissiveTexture := hasEmissive;
       baseColorUV := if hasBaseColor then baseColorUV key else 0%N;
       normalUV := if hasNormal then normalUV key else 0%N;
       metallicRoughnessUV :=
         if hasMetallicRoughness then metallicRoughnessUV key else 0%N;
       aoUV := if hasOcclusion then aoUV key else 0%N;
       emissiveUV := if hasEmissive then emissiveUV key else 0%N;
       baseColorFactor := baseColorFactor key; metallicFactor := metallicFactor key;
       roughnessFactor := roughnessFactor key; normalScale := normalScale key;
       aoStrength := aoStrength key; emissiveFactor := emissiveFactor key |} in
  (key', clearUnread key' uvmap).

End details.


(** ** Vocabulary of the properties *)

(** The settings of a builder through which a key can reach the backend. *)
Definition withoutRenderState (b : MaterialBuilder.t) : MaterialBuilder.t :=
  {| MaterialBuilder.mName := MaterialBuilder.mName b;
     MaterialBuilder.mFlipUV := MaterialBuilder.mFlipUV b;
     MaterialBuilder.mMaterialCode := MaterialBuilder.mMaterialCode b;
     MaterialBuilder.mDoubleSided := None;
     MaterialBuilder.mRequiredAttributes := MaterialBuilder.mRequiredAttributes b;
     MaterialBuilder.mParameters := MaterialBuilder.mParameters b;
     MaterialBuilder.mBlendingMode := None;
     MaterialBuilder.mMaskThreshold := None;
     MaterialBuilder.mDepthWrite := None;
     MaterialBuilder.mShading := None |}.

(** The five texture channels, in the order lines 233-239 bind them. *)
Inductive Channel : Type := BaseColor | Normal | MetallicRoughness | Occlusion | Emissive.

Definition hasTexture (c : Channel) (key : MaterialKey) : bool :=
  match c with
  | BaseColor => hasBaseColorTexture key
  | Normal => hasNormalTexture key
  | MetallicRoughness => hasMetallicRoughnessTexture key
  | Occlusion => hasOcclusionTexture key
  | Emissive => hasEmissiveTexture key
  end.

Definition channelUV (c : Channel) (key : MaterialKey) : N :=
  match c with
  | BaseColor => baseColorUV key
  | Normal => normalUV key
  | MetallicRoughness => metallicRoughnessUV key
  | Occlusion => aoUV key
  | Emissive => emissiveUV key
  end.

Definition indexName (c : Channel) : string :=
  match c with
  | BaseColor => "baseColorIndex"
  | Normal => "normalIndex"
  | MetallicRoughness => "metallicRoughnessIndex"
  | Occlusion => "aoIndex"
  | Emissive => "emissiveIndex"
  end.

Definition matrixName (c : Channel) : string :=
  match c with
  | BaseColor => "baseColorUvMatrix"
  | Normal => "normalUvMatrix"
  | MetallicRoughness => "metallicRoughnessUvMatrix"
  | Occlusion => "occlusionUvMatrix"
  | Emissive => "emissiveUvMatrix"
  end.

(** Every enabled channel names one of the eight UV sets. *)
Definition inRange (key : MaterialKey) : Prop :=
  ∀ c : Channel, hasTexture c key = true → (channelUV c key < 8)%N.

(** How a call ended, for the material [m] it went on with. *)
Definition outcome (c : MaterialKey) (m : Material) (r : result MaterialInstance) : Prop :=
  match r with
  | Ok mi => instanceOf mi = m ∧ inRange c
  | Throw e => e = out_of_range ∧ ¬ inRange c
  end.

(** The scalar factors the material declares. *)
Definition factorParameters : list (MaterialBuilder.ParameterType * string) :=
  [(MaterialBuilder.Uniform MaterialBuilder.FLOAT4, "baseColorFactor");
   (MaterialBuilder.Uniform MaterialBuilder.FLOAT, "metallicFactor");
   (MaterialBuilder.Uniform MaterialBuilder.FLOAT, "roughnessFactor");
   (MaterialBuilder.Uniform MaterialBuilder.FLOAT, "normalScale");
   (MaterialBuilder.Uniform MaterialBuilder.FLOAT, "aoStrength");
   (MaterialBuilder.Uniform MaterialBuilder.FLOAT3, "emissiveFactor")].

(** The parameters an instance leaves the loader with. *)
Definition instanceParameters : gset string :=
  {[ "baseColorIndex"; "normalIndex"; "metallicRoughnessIndex"; "aoIndex";
     "emissiveIndex"; "baseColorUvMatrix"; "metallicRoughnessUvMatrix";
     "normalUvMatrix"; "occlusionUvMatrix"; "emissiveUvMatrix"; "blendEnabled" ]}.

(** Whether a call returned. *)
Definition isOk {A} (r : result A) : bool :=
  match r with
  | Ok _ => true
  | Throw _ => false
  end.

(** ** Sample inputs *)

(** A lit, opaque material with a base-color texture on UV set 0. *)
Definition sampleKey : MaterialKey :=
  {| doubleSided := false; unlit := false; alphaMode := OPAQUE; alphaMaskThreshold := 0;
     hasBaseColorTexture := true; hasNormalTexture := false;
     hasMetallicRoughnessTexture := false; hasOcclusionTexture := false;
     hasEmissiveTexture := false;
     baseColorUV := 0; normalUV := 0; metallicRoughnessUV := 0; aoUV := 0; emissiveUV := 0;
     baseColorFactor := (float_1, float_1, float_1, float_1);
     metallicFactor := float_1; roughnessFactor := float_1; normalScale := float_1;
     aoStrength := float_1; emissiveFactor := (float_0, float_0, float_0) |}.

(** The same material as imported with a normal map on UV set 1, which has
    no slot in [sampleUvMap]. *)
Definition sampleKeyWithNormal : MaterialKey :=
  {| doubleSided := false; unlit := false; alphaMode := OPAQUE; alphaMaskThreshold := 0;
     hasBaseColorTexture := true; hasNormalTexture := true;
     hasMetallicRoughnessTexture := false; hasOcclusionTexture := false;
     hasEmissiveTexture := false;
     baseColorUV := 0; normalUV := 1; metallicRoughnessUV := 0; aoUV := 0; emissiveUV := 0;
     baseColorFactor := (float_1, float_1, float_1, float_1);
     metallicFactor := float_1; roughnessFactor := float_1; normalScale := float_1;
     aoStrength := float_1; emissiveFactor := (float_0, float_0, float_0) |}.


Definition sampleUvMap : UvMap := [# 1; 0; 0; 0; 0; 0; 0; 0]%N.
Definition unusedUvMap : UvMap := [# 0; 0; 0; 0; 0; 0; 0; 0]%N.

Definition emptyEngine : Engine :=
  {| builds := []; materials := []; destroyed := []; instances := 0 |}.

Definition freshLoader : UbershaderLoader := UbershaderLoader_new emptyEngine.

Definition acceptAll (_ : Engine) (_ : MaterialBuilder.t) : bool := true.
Definition rejectAll (_ : Engine) (_ : MaterialBuilder.t) : bool := false.

Section Loader.

(** The normalization called at line 217; it rewrites the caller's key and
    map in place, here it returns them. *)
Variable constrainMaterial : MaterialKey -> UvMap -> MaterialKey * UvMap.

(** Whether the backend accepts a builder (lines 211-212). *)
Variable build_ok : Engine -> MaterialBuilder.t -> bool.

(** Modelled from the spec: [MaterialBuilder::build] and
    [Material::Builder::build] are the external shader backend.  A rejected
    builder is a hard failure that leaves through the caller; an accepted one
    yields a new material. *)
Definition build (builder : MaterialBuilder.t) (engine : Engine) : result Material * Engine :=
  let engine := {| builds := builds engine ++ [builder]; materials := materials engine;
                   destroyed := destroyed engine; instances := instances engine |} in
  if build_ok engine builder then
    let '(material, engine) := Engine_load (BuiltPackage builder) engine in
    (Ok material, engine)
  else (Throw CompilationFailure, engine).

(** Lines 145-213. *)
Definition createMaterial (engine : Engine) (config : MaterialKey) (uvmap : UvMap)
    (name : string) : result Material * Engine :=
  build (configureBuilder config uvmap name) engine.

(** Lines 215-247. *)
Definition createMaterialInstance (config : MaterialKey) (uvmap : UvMap) (label : string)
    : M MaterialInstance :=
  let '(config, uvmap) := constrainMaterial config uvmap in
  do iter <- find config;
  let getUvIndex := getUvIndex uvmap in
  do material <-
    match iter with
    | None =>
        do material <- onEngine (fun engine => createMaterial engine config uvmap label);
        emplace config material ;;
        push_back material ;;
        ret material
    | Some material => ret material
    end;
  let identity := mat3f_identity in
  do mi <- createInstance material;
  do i <- lift (getUvIndex (baseColorUV config) (hasBaseColorTexture config));
  let mi := setParameter "baseColorIndex" (PInt i) mi in
  do i <- lift (getUvIndex (normalUV config) (hasNormalTexture config));
  let mi := setParameter "normalIndex" (PInt i) mi in
  do i <- lift (getUvIndex (metallicRoughnessUV config) (hasMetallicRoughnessTexture config));
  let mi := setParameter "metallicRoughnessIndex" (PInt i) mi in
  do i <- lift (getUvIndex (aoUV config) (hasOcclusionTexture config));
  let mi := setParameter "aoIndex" (PInt i) mi in
  do i <- lift (getUvIndex (emissiveUV config) (hasEmissiveTexture config));
  let mi := setParameter "emissiveIndex" (PInt i) mi in
  let mi := setParameter "baseColorUvMatrix" (PMat3 identity) mi in
  let mi := setParameter "metallicRoughnessUvMatrix" (PMat3 identity) mi in
  let mi := setParameter "normalUvMatrix" (PMat3 identity) mi in
  let mi := setParameter "occlusionUvMatrix" (PMat3 identity) mi in
  let mi := setParameter "emissiveUvMatrix" (PMat3 identity) mi in
  let mi := setParameter "blendEnabled" (PBool (bool_decide (alphaMode config = BLEND))) mi in
  ret mi.

(** A caller that issues [createMaterialInstance] calls one after the other,
    whatever each one's outcome. *)
Fixpoint run (calls : list (MaterialKey * UvMap * string)) (s : UbershaderLoader)
    : UbershaderLoader :=
  match calls with
  | [] => s
  | (config, uvmap, label) :: calls =>
      run calls (createMaterialInstance config uvmap label s).2
  end.

(** The declared type a value is bound as. *)
Definition parameterType (v : ParameterValue) : MaterialBuilder.ParameterType :=
  match v with
  | PInt _ => MaterialBuilder.Uniform MaterialBuilder.INT
  | PBool _ => MaterialBuilder.Uniform MaterialBuilder.BOOL
  | PMat3 _ => MaterialBuilder.Uniform MaterialBuilder.MAT3
  end.

(** The texture samplers the material declares. *)
Definition samplerParameters : list (MaterialBuilder.ParameterType * string) :=
  [(MaterialBuilder.Sampler MaterialBuilder.SAMPLER_2D, "baseColorMap");
   (MaterialBuilder.Sampler MaterialBuilder.SAMPLER_2D, "metallicRoughnessMap");
   (MaterialBuilder.Sampler MaterialBuilder.SAMPLER_2D, "normalMap");
   (MaterialBuilder.Sampler MaterialBuilder.SAMPLER_2D, "occlusionMap");
   (MaterialBuilder.Sampler MaterialBuilder.SAMPLER_2D, "emissiveMap")].

(** A normalizer that changes nothing, and a key whose base-color texture
    names a ninth UV set. *)
Definition keepMaterial (key : MaterialKey) (uvmap : UvMap) : MaterialKey * UvMap :=
  (key, uvmap).

Definition farKey : MaterialKey :=
  {| doubleSided := false; unlit := false; alphaMode := MASK;
     alphaMaskThreshold := float_1;
     hasBaseColorTexture := true; hasNormalTexture := false;
     hasMetallicRoughnessTexture := false; hasOcclusionTexture := false;
     hasEmissiveTexture := false;
     baseColorUV := 8; normalUV := 0; metallicRoughnessUV := 0; aoUV := 0; emissiveUV := 0;
     baseColorFactor := (float_1, float_1, float_1, float_1);
     metallicFactor := float_1; roughnessFactor := float_1; normalScale := float_1;
     aoStrength := float_1; emissiveFactor := (float_0, float_0, float_0) |}.

(** ** Loaders in use *)

(** An engine whose destroyed handles are handles it gave out, each destroyed
    once. *)
Definition Engine_wf (engine : Engine) : Prop :=
  NoDup (destroyed engine)
  ∧ ∀ m, m ∈ destroyed engine → (m < length (materials engine))%nat.

(** The loaders a client can hold: a new one (line 254), and whatever
    [createMaterialInstance], returning or throwing, and [destroyMaterials]
    make of one. *)
Inductive reachable : UbershaderLoader → Prop :=
| reachable_new (engine : Engine) :
    Engine_wf engine → reachable (UbershaderLoader_new engine)
| reachable_createMaterialInstance (s : UbershaderLoader) config uvmap label :
    reachable s → reachable (createMaterialInstance config uvmap label s).2
| reachable_destroyMaterials (s : UbershaderLoader) :
    reachable s → reachable (destroyMaterials s).

(** What the cache, the registry and the engine have to do with each other. *)
Definition coherent (s : UbershaderLoader) : Prop :=
  mMaterials s ≡ₚ (map_to_list (mCache s)).*2
  ∧ NoDup (mMaterials s)
  ∧ (∀ k m, mCache s !! k = Some m →
       (m ∉ destroyed (mEngine s))
       ∧ ∃ u name, materials (mEngine s) !! m
                   = Some (BuiltPackage (configureBuilder k u name)))
  ∧ materials (mEngine s) !! mMaterial s = Some GLTFRESOURCES_UBERSHADER_DATA
  ∧ (mMaterial s ∉ destroyed (mEngine s))
  ∧ Engine_wf (mEngine s).

(** The normalized keys of a sequence of calls. *)
Definition normalizedKeys (calls : list (MaterialKey * UvMap * string)) : list MaterialKey :=
  (λ call, (constrainMaterial call.1.1 call.1.2).1) <$> calls.

(** The loader after one call for [sampleKey] on a new loader. *)
Definition loadedOnce : UbershaderLoader :=
  (createMaterialInstance sampleKey sampleUvMap "sample" freshLoader).2.

(** ** Shader synthesis *)

(** C8: the shader source text is the same string for every two keys, equal
    or not; apart from the settings doubleSided, blending mode, mask
    threshold, depth write and shading model, the builder does not depend on
    the key (nor on the UV map). *)
Theorem shaderFromKey_constant (k1 k2 : MaterialKey) (u1 u2 : UvMap) (name : string) :
  shaderFromKey k1 = shaderFromKey k2
  ∧ withoutRenderState (configureBuilder k1 u1 name)
    = withoutRenderState (configureBuilder k2 u2 name).
Proof.
  split; [reflexivity|].
  unfold configureBuilder.
  destruct (alphaMode k1), (alphaMode k2); reflexivity.
Qed.

(** C4: equal keys synthesize byte-identical shader text and the same
    parameter declarations in the same order, whatever the UV maps and the
    labels of the two runs. *)
Theorem synthesis_deterministic (k1 k2 : MaterialKey) (u1 u2 : UvMap) (n1 n2 : string) :
  k1 = k2 →
  shaderFromKey k1 = shaderFromKey k2
  ∧ MaterialBuilder.mMaterialCode (configureBuilder k1 u1 n1)
    = MaterialBuilder.mMaterialCode (configureBuilder k2 u2 n2)
  ∧ MaterialBuilder.mParameters (configureBuilder k1 u1 n1)
    = MaterialBuilder.mParameters (configureBuilder k2 u2 n2)
  ∧ configureBuilder k1 u1 n1 = configureBuilder k2 u1 n1.
Proof.
  intros ->. split; [reflexivity|].
  split; [|split; [|reflexivity]];
    unfold configureBuilder; destruct (alphaMode k2); reflexivity.
Qed.

(** C7: OPAQUE builds with opaque blending, MASK with masked blending and the
    key's alphaMaskThreshold as mask threshold, BLEND with transparent
    blending and depth write switched on. *)
Theorem blending_of_alphaMode (config : MaterialKey) (uvmap : UvMap) (name : string) :
  let builder := configureBuilder config uvmap name in
  match alphaMode config with
  | OPAQUE => MaterialBuilder.mBlendingMode builder = Some MaterialBuilder.OPAQUE
  | MASK =>
      MaterialBuilder.mBlendingMode builder = Some MaterialBuilder.MASKED
      ∧ MaterialBuilder.mMaskThreshold builder = Some (alphaMaskThreshold config)
  | BLEND =>
      MaterialBuilder.mBlendingMode builder = Some MaterialBuilder.TRANSPARENT
      ∧ MaterialBuilder.mDepthWrite builder = Some true
  end.
Proof.
  unfold configureBuilder. destruct (alphaMode config); cbn; auto.
Qed.

(** ** Normalization *)






(** A channel of the normalized key is enabled exactly when it was enabled
    and its UV set had a slot; its UV index is then the one it had, and 0
    otherwise. *)
Lemma constrainMaterial_channel (c : Channel) (key : MaterialKey) (uvmap : UvMap) :
  let key' := (details.constrainMaterial key uvmap).1 in
  hasTexture c key'
  = hasTexture c key && details.sampleable uvmap (channelUV c key)
  ∧ channelUV c key' = if hasTexture c key' then channelUV c key else 0%N.
Proof. by destruct c. Qed.


(** A channel whose UV set has entry 0 is disabled. *)
Lemma constrainMaterial_disables_unassigned (c : Channel) (key : MaterialKey)
    (uvmap : UvMap) :
  UvMap_at uvmap (channelUV c key) = Some 0%N →
  hasTexture c (details.constrainMaterial key uvmap).1 = false.
Proof.
  intros Hat. destruct (constrainMaterial_channel c key uvmap) as [-> _].
  unfold details.sampleable. rewrite Hat. cbn. apply andb_false_r.
Qed.


(** Keys that differ only in the UV index of disabled channels are one key
    after normalization, with one map. *)
Lemma constrainMaterial_collapses (key1 key2 : MaterialKey) (uvmap : UvMap) :
  (∀ c, hasTexture c key1 = hasTexture c key2) →
  (∀ c, hasTexture c key1 = true → channelUV c key1 = channelUV c key2) →
  doubleSided key1 = doubleSided key2 → unlit key1 = unlit key2 →
  alphaMode key1 = alphaMode key2 → alphaMaskThreshold key1 = alphaMaskThreshold key2 →
  baseColorFactor key1 = baseColorFactor key2 → metallicFactor key1 = metallicFactor key2 →
  roughnessFactor key1 = roughnessFactor key2 → normalScale key1 = normalScale key2 →
  aoStrength key1 = aoStrength key2 → emissiveFactor key1 = emissiveFactor key2 →
  details.constrainMaterial key1 uvmap = details.constrainMaterial key2 uvmap.
Proof.
  intros Hhas HUV.
  pose proof (Hhas BaseColor) as Hb. pose proof (HUV BaseColor) as Ub.
  pose proof (Hhas Normal) as Hn. pose proof (HUV Normal) as Un.
  pose proof (Hhas MetallicRoughness) as Hm. pose proof (HUV MetallicRoughness) as Um.
  pose proof (Hhas Occlusion) as Ho. pose proof (HUV Occlusion) as Uo.
  pose proof (Hhas Emissive) as He. pose proof (HUV Emissive) as Ue.
  clear Hhas HUV. destruct key1, key2. cbn in *. intros. subst.
  unfold details.constrainMaterial. cbn.
  destruct hasBaseColorTexture1, hasNormalTexture1, hasMetallicRoughnessTexture1,
    hasOcclusionTexture1, hasEmissiveTexture1;
    rewrite ?Ub, ?Un, ?Um, ?Uo, ?Ue by done; reflexivity.
Qed.

(** ** Bounds of the UV map *)

Lemma UvMap_at_is_Some (uvmap : UvMap) (srcIndex : N) :
  is_Some (UvMap_at uvmap srcIndex) ↔ (srcIndex < 8)%N.
Proof.
  unfold UvMap_at. rewrite lookup_lt_is_Some, length_vec_to_list. lia.
Qed.

Lemma getUvIndex_disabled (uvmap : UvMap) (srcIndex : N) :
  getUvIndex uvmap srcIndex false = Ok (-1).
Proof. reflexivity. Qed.

Lemma getUvIndex_enabled (uvmap : UvMap) (srcIndex : N) :
  (srcIndex < 8)%N →
  ∃ slot, UvMap_at uvmap srcIndex = Some slot
          ∧ getUvIndex uvmap srcIndex true = Ok (Z.of_N slot - 1).
Proof.
  intros Hlt. apply (UvMap_at_is_Some uvmap) in Hlt as [slot Hslot]. exists slot. split; [done|].
  unfold getUvIndex. by rewrite Hslot.
Qed.

Lemma getUvIndex_Ok (uvmap : UvMap) (srcIndex : N) (hasTexture : bool) (i : Z) :
  getUvIndex uvmap srcIndex hasTexture = Ok i →
  if hasTexture
  then ∃ slot, UvMap_at uvmap srcIndex = Some slot ∧ i = Z.of_N slot - 1
  else i = -1.
Proof.
  unfold getUvIndex. destruct hasTexture; [|congruence].
  destruct (UvMap_at uvmap srcIndex) as [slot|]; [|discriminate].
  intros [= <-]. eauto.
Qed.

Lemma getUvIndex_total (uvmap : UvMap) (srcIndex : N) (hasTexture : bool) :
  (hasTexture = true → (srcIndex < 8)%N) →
  ∃ i, getUvIndex uvmap srcIndex hasTexture = Ok i.
Proof.
  destruct hasTexture; [|eauto using getUvIndex_disabled].
  intros H. destruct (getUvIndex_enabled uvmap srcIndex) as (slot & _ & ->); eauto.
Qed.

Lemma getUvIndex_Throw (uvmap : UvMap) (srcIndex : N) (hasTexture : bool) (e : error) :
  getUvIndex uvmap srcIndex hasTexture = Throw e →
  e = out_of_range ∧ hasTexture = true ∧ (8 ≤ srcIndex)%N.
Proof.
  unfold getUvIndex. destruct hasTexture; [|discriminate].
  destruct (UvMap_at uvmap srcIndex) as [slot|] eqn:Hat; [discriminate|].
  intros [= <-]. repeat split.
  destruct (decide (srcIndex < 8)%N) as [Hlt|]; [|lia].
  apply (UvMap_at_is_Some uvmap) in Hlt as [? ?]. congruence.
Qed.

Lemma getUvIndex_Ok_lt (uvmap : UvMap) (srcIndex : N) (hasTexture : bool) (i : Z) :
  getUvIndex uvmap srcIndex hasTexture = Ok i → hasTexture = true → (srcIndex < 8)%N.
Proof.
  intros H ->. apply getUvIndex_Ok in H as (slot & Hslot & _).
  apply (UvMap_at_is_Some uvmap). eauto.
Qed.

(** ** One call, case by case *)

Ltac unfold_call Hc :=
  unfold createMaterialInstance; rewrite Hc;
  unfold bind, find, emplace, push_back, ret, lift, createInstance, onEngine;
  cbn beta iota.

Ltac out_of_range H :=
  apply getUvIndex_Throw in H as (-> & ? & ?);
  intros [= <- <-]; cbn;
  repeat split; try reflexivity;
  let R := fresh in
  intros R;
  first [ pose proof (R BaseColor ltac:(assumption))
        | pose proof (R Normal ltac:(assumption))
        | pose proof (R MetallicRoughness ltac:(assumption))
        | pose proof (R Occlusion ltac:(assumption))
        | pose proof (R Emissive ltac:(assumption)) ];
  cbn in *; lia.

Ltac bind_parameters c u :=
  let H1 := fresh "Hbase" in
  let H2 := fresh "Hnormal" in
  let H3 := fresh "Hmr" in
  let H4 := fresh "Hao" in
  let H5 := fresh "Hemissive" in
  destruct (getUvIndex u (baseColorUV c) (hasBaseColorTexture c)) eqn:H1;
    [|out_of_range H1];
  destruct (getUvIndex u (normalUV c) (hasNormalTexture c)) eqn:H2;
    [|out_of_range H2];
  destruct (getUvIndex u (metallicRoughnessUV c) (hasMetallicRoughnessTexture c)) eqn:H3;
    [|out_of_range H3];
  destruct (getUvIndex u (aoUV c) (hasOcclusionTexture c)) eqn:H4;
    [|out_of_range H4];
  destruct (getUvIndex u (emissiveUV c) (hasEmissiveTexture c)) eqn:H5;
    [|out_of_range H5];
  intros [= <- <-]; cbn;
  repeat split; try reflexivity;
  try (intros []; cbn; eauto using getUvIndex_Ok_lt).

Lemma createMaterialInstance_hit config uvmap label s r s' c u m :
  constrainMaterial config uvmap = (c, u) →
  mCache s !! c = Some m →
  createMaterialInstance config uvmap label s = (r, s') →
  mCache s' = mCache s ∧ mMaterials s' = mMaterials s ∧ mMaterial s' = mMaterial s
  ∧ builds (mEngine s') = builds (mEngine s)
  ∧ materials (mEngine s') = materials (mEngine s)
  ∧ destroyed (mEngine s') = destroyed (mEngine s)
  ∧ instances (mEngine s') = S (instances (mEngine s))
  ∧ outcome c m r.
Proof.
  intros Hc Hlk. unfold_call Hc. rewrite Hlk. cbn -[getUvIndex setParameter].
  unfold outcome. bind_parameters c u.
Qed.

Lemma createMaterial_inv engine config uvmap name r engine' :
  createMaterial engine config uvmap name = (r, engine') →
  builds engine' = (builds engine ++ [configureBuilder config uvmap name])%list
  ∧ destroyed engine' = destroyed engine
  ∧ instances engine' = instances engine
  ∧ match r with
    | Ok m =>
        m = length (materials engine)
        ∧ materials engine'
          = (materials engine ++ [BuiltPackage (configureBuilder config uvmap name)])%list
    | Throw e => e = CompilationFailure ∧ materials engine' = materials engine
    end.
Proof.
  unfold createMaterial, build, Engine_load.
  generalize (configureBuilder config uvmap name). intros b.
  destruct (build_ok _ b); intros [= <- <-]; cbn; auto.
Qed.

Lemma createMaterialInstance_miss_Throw config uvmap label s r s' c u e engine :
  constrainMaterial config uvmap = (c, u) →
  mCache s !! c = None →
  createMaterial (mEngine s) c u label = (Throw e, engine) →
  createMaterialInstance config uvmap label s = (r, s') →
  r = Throw e ∧ s' = set_mEngine engine s.
Proof.
  intros Hc Hlk Hcreate. unfold_call Hc. rewrite Hlk, Hcreate.
  by intros [= <- <-].
Qed.

Lemma createMaterialInstance_miss_Ok config uvmap label s r s' c u m engine :
  constrainMaterial config uvmap = (c, u) →
  mCache s !! c = None →
  createMaterial (mEngine s) c u label = (Ok m, engine) →
  createMaterialInstance config uvmap label s = (r, s') →
  mCache s' = <[c := m]> (mCache s)
  ∧ mMaterials s' = (mMaterials s ++ [m])%list
  ∧ mMaterial s' = mMaterial s
  ∧ builds (mEngine s') = builds engine
  ∧ materials (mEngine s') = materials engine
  ∧ destroyed (mEngine s') = destroyed engine
  ∧ instances (mEngine s') = S (instances engine)
  ∧ outcome c m r.
Proof.
  intros Hc Hlk Hcreate. unfold_call Hc. rewrite Hlk, Hcreate.
  cbn -[getUvIndex setParameter]. rewrite Hlk.
  unfold outcome. bind_parameters c u.
Qed.

(** ** Parameter binding *)

Lemma createMaterialInstance_Ok_parameters config uvmap label s mi s' c u :
  constrainMaterial config uvmap = (c, u) →
  createMaterialInstance config uvmap label s = (Ok mi, s') →
  ∃ i : Channel → Z,
    (∀ ch, getUvIndex u (channelUV ch c) (hasTexture ch c) = Ok (i ch))
    ∧ parameters mi =
        <["blendEnabled" := PBool (bool_decide (alphaMode c = BLEND))]>
        (<["emissiveUvMatrix" := PMat3 mat3f_identity]>
        (<["occlusionUvMatrix" := PMat3 mat3f_identity]>
        (<["normalUvMatrix" := PMat3 mat3f_identity]>
        (<["metallicRoughnessUvMatrix" := PMat3 mat3f_identity]>
        (<["baseColorUvMatrix" := PMat3 mat3f_identity]>
        (<["emissiveIndex" := PInt (i Emissive)]>
        (<["aoIndex" := PInt (i Occlusion)]>
        (<["metallicRoughnessIndex" := PInt (i MetallicRoughness)]>
        (<["normalIndex" := PInt (i Normal)]>
        (<["baseColorIndex" := PInt (i BaseColor)]> ∅)))))))))).
Proof.
  intros Hc. unfold_call Hc.
  destruct (mCache s !! c) as [m|];
    [|destruct (createMaterial (mEngine s) c u label) as [[m|e] engine];
      [|discriminate]];
    cbn -[getUvIndex setParameter];
    (destruct (getUvIndex u (baseColorUV c) (hasBaseColorTexture c)) as [i0|] eqn:H0;
      [|discriminate]);
    (destruct (getUvIndex u (normalUV c) (hasNormalTexture c)) as [i1|] eqn:H1;
      [|discriminate]);
    (destruct (getUvIndex u (metallicRoughnessUV c) (hasMetallicRoughnessTexture c))
      as [i2|] eqn:H2; [|discriminate]);
    (destruct (getUvIndex u (aoUV c) (hasOcclusionTexture c)) as [i3|] eqn:H3;
      [|discriminate]);
    (destruct (getUvIndex u (emissiveUV c) (hasEmissiveTexture c)) as [i4|] eqn:H4;
      [|discriminate]);
    intros [= <- <-];
    exists (λ ch, match ch with
                  | BaseColor => i0 | Normal => i1 | MetallicRoughness => i2
                  | Occlusion => i3 | Emissive => i4
                  end);
    (split; [by intros []|reflexivity]).
Qed.

(** C3: the instance a call returns has, for each of the five channels, its
    UV-index parameter equal to (uvmap[channelUV] - 1) when the normalized
    key enables the channel and to -1 when it does not, its five UV matrices
    equal to the identity, and blendEnabled equal to (alphaMode == BLEND). *)
Theorem createMaterialInstance_binds config uvmap label s mi s' :
  createMaterialInstance config uvmap label s = (Ok mi, s') →
  let '(c, u) := constrainMaterial config uvmap in
  (∀ ch : Channel,
     if hasTexture ch c
     then ∃ slot, UvMap_at u (channelUV ch c) = Some slot
                  ∧ parameters mi !! indexName ch = Some (PInt (Z.of_N slot - 1))
     else parameters mi !! indexName ch = Some (PInt (-1)))
  ∧ (∀ ch : Channel, parameters mi !! matrixName ch = Some (PMat3 mat3f_identity))
  ∧ parameters mi !! "blendEnabled" = Some (PBool (bool_decide (alphaMode c = BLEND))).
Proof.
  intros Hcall. destruct (constrainMaterial config uvmap) as [c u] eqn:Hc.
  destruct (createMaterialInstance_Ok_parameters _ _ _ _ _ _ _ _ Hc Hcall)
    as (i & Hi & ->).
  split; [|split].
  - intros ch. specialize (Hi ch). apply getUvIndex_Ok in Hi.
    destruct (hasTexture ch c).
    + destruct Hi as (slot & Hslot & Hi). exists slot. split; [done|].
      rewrite <- Hi. by destruct ch.
    + rewrite <- Hi. by destruct ch.
  - by intros [].
  - done.
Qed.

Lemma configureBuilder_mParameters config uvmap name :
  MaterialBuilder.mParameters (configureBuilder config uvmap name) =
  [(MaterialBuilder.Uniform MaterialBuilder.INT, "baseColorIndex");
   (MaterialBuilder.Uniform MaterialBuilder.FLOAT4, "baseColorFactor");
   (MaterialBuilder.Sampler MaterialBuilder.SAMPLER_2D, "baseColorMap");
   (MaterialBuilder.Uniform MaterialBuilder.MAT3, "baseColorUvMatrix");
   (MaterialBuilder.Uniform MaterialBuilder.BOOL, "blendEnabled");
   (MaterialBuilder.Uniform MaterialBuilder.INT, "metallicRoughnessIndex");
   (MaterialBuilder.Uniform MaterialBuilder.FLOAT, "metallicFactor");
   (MaterialBuilder.Uniform MaterialBuilder.FLOAT, "roughnessFactor");
   (MaterialBuilder.Sampler MaterialBuilder.SAMPLER_2D, "metallicRoughnessMap");
   (MaterialBuilder.Uniform MaterialBuilder.MAT3, "metallicRoughnessUvMatrix");
   (MaterialBuilder.Uniform MaterialBuilder.INT, "normalIndex");
   (MaterialBuilder.Uniform MaterialBuilder.FLOAT, "normalScale");
   (MaterialBuilder.Sampler MaterialBuilder.SAMPLER_2D, "normalMap");
   (MaterialBuilder.Uniform MaterialBuilder.MAT3, "normalUvMatrix");
   (MaterialBuilder.Uniform MaterialBuilder.INT, "aoIndex");
   (MaterialBuilder.Uniform MaterialBuilder.FLOAT, "aoStrength");
   (MaterialBuilder.Sampler MaterialBuilder.SAMPLER_2D, "occlusionMap");
   (MaterialBuilder.Uniform MaterialBuilder.MAT3, "occlusionUvMatrix");
   (MaterialBuilder.Uniform MaterialBuilder.INT, "emissiveIndex");
   (MaterialBuilder.Uniform MaterialBuilder.FLOAT3, "emissiveFactor");
   (MaterialBuilder.Sampler MaterialBuilder.SAMPLER_2D, "emissiveMap");
   (MaterialBuilder.Uniform MaterialBuilder.MAT3, "emissiveUvMatrix")].
Proof. unfold configureBuilder. destruct (alphaMode config); reflexivity. Qed.

(** C9: a call that returns has set exactly 11 parameters on the instance,
    the five UV indices, the five UV matrices and blendEnabled; the six
    scalar factors are declared by the material and not set, so the instance
    keeps the backend's default for each, whatever the key holds. *)
Theorem createMaterialInstance_leaves_factors config uvmap label s mi s' :
  createMaterialInstance config uvmap label s = (Ok mi, s') →
  dom (parameters mi) = instanceParameters
  ∧ size (parameters mi) = 11%nat
  ∧ ∀ p, p ∈ factorParameters →
      p ∈ MaterialBuilder.mParameters
            (configureBuilder (constrainMaterial config uvmap).1
                              (constrainMaterial config uvmap).2 label)
      ∧ parameters mi !! p.2 = None.
Proof.
  intros Hcall. destruct (constrainMaterial config uvmap) as [c u] eqn:Hc.
  destruct (createMaterialInstance_Ok_parameters _ _ _ _ _ _ _ _ Hc Hcall)
    as (i & _ & Hmi).
  assert (dom (parameters mi) = instanceParameters) as Hdom.
  { rewrite Hmi, !dom_insert_L, dom_empty_L. unfold instanceParameters. set_solver. }
  split; [done|]. split.
  - rewrite <- size_dom, Hdom. reflexivity.
  - intros p Hp. rewrite configureBuilder_mParameters.
    unfold factorParameters in Hp. rewrite Hmi.
    repeat (apply elem_of_cons in Hp as [->|Hp]);
      [split; [repeat first [apply list_elem_of_here|apply list_elem_of_further]
              |reflexivity].. |].
    by apply elem_of_nil in Hp.
Qed.

(** C10: when every channel the normalized key enables names one of the
    eight UV sets, each bounds-checked read of the map is in range and the
    call does not throw out_of_range; a disabled channel yields -1 without
    reading the map. *)
Theorem createMaterialInstance_in_range config uvmap label s :
  inRange (constrainMaterial config uvmap).1 →
  let '(c, u) := constrainMaterial config uvmap in
  (∀ ch : Channel,
     if hasTexture ch c
     then ∃ slot, UvMap_at u (channelUV ch c) = Some slot
                  ∧ getUvIndex u (channelUV ch c) true = Ok (Z.of_N slot - 1)
     else ∀ (u' : UvMap) (srcIndex : N), getUvIndex u' srcIndex false = Ok (-1))
  ∧ (createMaterialInstance config uvmap label s).1 ≠ Throw out_of_range.
Proof.
  destruct (constrainMaterial config uvmap) as [c u] eqn:Hc. cbn. intros Hrange.
  split.
  - intros ch. destruct (hasTexture ch c) eqn:Hch.
    + apply getUvIndex_enabled; auto.
    + reflexivity.
  - destruct (createMaterialInstance config uvmap label s) as [r s'] eqn:Hcall. cbn.
    destruct (mCache s !! c) as [m|] eqn:Hlk.
    + destruct (createMaterialInstance_hit _ _ _ _ _ _ _ _ _ Hc Hlk Hcall)
        as (_ & _ & _ & _ & _ & _ & _ & Hout).
      destruct r; [done|]. destruct Hout as [_ []]. done.
    + destruct (createMaterial (mEngine s) c u label) as [[m|e] engine] eqn:Hcreate.
      * destruct (createMaterialInstance_miss_Ok _ _ _ _ _ _ _ _ _ _ Hc Hlk Hcreate Hcall)
          as (_ & _ & _ & _ & _ & _ & _ & Hout).
        destruct r; [done|]. destruct Hout as [_ []]. done.
      * destruct (createMaterialInstance_miss_Throw _ _ _ _ _ _ _ _ _ _ Hc Hlk Hcreate Hcall)
          as [-> _].
        apply createMaterial_inv in Hcreate as (_ & _ & _ & -> & _). done.
Qed.

(** ** The cache *)



(** A call whose normalized key is cached returns an instance of the cached
    material and builds nothing. *)
Lemma cached_key_returns config uvmap label s m :
  mCache s !! (constrainMaterial config uvmap).1 = Some m →
  inRange (constrainMaterial config uvmap).1 →
  ∃ mi s', createMaterialInstance config uvmap label s = (Ok mi, s')
    ∧ instanceOf mi = m
    ∧ mCache s' = mCache s ∧ mMaterials s' = mMaterials s
    ∧ builds (mEngine s') = builds (mEngine s)
    ∧ materials (mEngine s') = materials (mEngine s).
Proof.
  destruct (constrainMaterial config uvmap) as [c u] eqn:Hc. cbn. intros Hlk Hrange.
  destruct (createMaterialInstance config uvmap label s) as [r s'] eqn:Hcall.
  destruct (createMaterialInstance_hit _ _ _ _ _ _ _ _ _ Hc Hlk Hcall)
    as (Hcache & Hmats & _ & Hbuilds & Hmaterials & _ & _ & Hout).
  destruct r as [mi|e]; cbn in Hout.
  - exists mi, s'. by destruct Hout.
  - by destruct Hout as [_ []].
Qed.

Lemma returned_key_is_cached config uvmap label s mi s' :
  createMaterialInstance config uvmap label s = (Ok mi, s') →
  let c := (constrainMaterial config uvmap).1 in
  mCache s' !! c = Some (instanceOf mi) ∧ inRange c
  ∧ getMaterialsCount s' =
      match mCache s !! c with
      | Some _ => getMaterialsCount s
      | None => S (getMaterialsCount s)
      end.
Proof.
  destruct (constrainMaterial config uvmap) as [c u] eqn:Hc. cbn. intros Hcall.
  unfold getMaterialsCount.
  destruct (mCache s !! c) as [m|] eqn:Hlk.
  - destruct (createMaterialInstance_hit _ _ _ _ _ _ _ _ _ Hc Hlk Hcall)
      as (-> & -> & _ & _ & _ & _ & _ & <- & Hrange).
    done.
  - destruct (createMaterial (mEngine s) c u label) as [[m|e] engine] eqn:Hcreate.
    + destruct (createMaterialInstance_miss_Ok _ _ _ _ _ _ _ _ _ _ Hc Hlk Hcreate Hcall)
        as (-> & -> & _ & _ & _ & _ & _ & <- & Hrange).
      rewrite lookup_insert_eq, length_app. cbn. repeat split; [done|lia].
    + by destruct (createMaterialInstance_miss_Throw _ _ _ _ _ _ _ _ _ _
                     Hc Hlk Hcreate Hcall).
Qed.


(** C2: when the backend rejects the builder on a cache miss, the call ends
    with that failure, nothing has been inserted in the cache or in the
    registry, and every key cached before is still served afterwards. *)
Theorem compilation_failure_keeps_cache config uvmap label s :
  mCache s !! (constrainMaterial config uvmap).1 = None →
  (createMaterial (mEngine s) (constrainMaterial config uvmap).1
     (constrainMaterial config uvmap).2 label).1 = Throw CompilationFailure →
  ∃ s',
    createMaterialInstance config uvmap label s = (Throw CompilationFailure, s')
    ∧ mCache s' = mCache s ∧ mMaterials s' = mMaterials s
    ∧ mMaterial s' = mMaterial s
    ∧ materials (mEngine s') = materials (mEngine s)
    ∧ destroyed (mEngine s') = destroyed (mEngine s)
    ∧ ∀ config2 uvmap2 label2 m,
        mCache s !! (constrainMaterial config2 uvmap2).1 = Some m →
        inRange (constrainMaterial config2 uvmap2).1 →
        ∃ mi s'', createMaterialInstance config2 uvmap2 label2 s' = (Ok mi, s'')
          ∧ instanceOf mi = m
          ∧ builds (mEngine s'') = builds (mEngine s')
          ∧ mCache s'' = mCache s ∧ mMaterials s'' = mMaterials s.
Proof.
  destruct (constrainMaterial config uvmap) as [c u] eqn:Hc. cbn. intros Hlk Hfail.
  destruct (createMaterial (mEngine s) c u label) as [r engine] eqn:Hcreate.
  cbn in Hfail. subst r.
  destruct (createMaterialInstance config uvmap label s) as [r s'] eqn:Hcall.
  destruct (createMaterialInstance_miss_Throw _ _ _ _ _ _ _ _ _ _ Hc Hlk Hcreate Hcall)
    as [-> ->].
  apply createMaterial_inv in Hcreate as (_ & Hdestroyed & _ & _ & Hmaterials).
  exists (set_mEngine engine s). repeat split; try done.
  intros config2 uvmap2 label2 m Hcached Hrange.
  destruct (cached_key_returns config2 uvmap2 label2
              (set_mEngine engine s) m Hcached Hrange)
    as (mi & s'' & Hcall2 & Hmi & Hcache & Hmats & Hbuilds & _).
  exists mi, s''. done.
Qed.

(** ** Teardown *)

Lemma foldl_Engine_destroy (l : list (MaterialKey * Material)) (engine : Engine) :
  let engine' := foldl (λ e iter, Engine_destroy e iter.2) engine l in
  builds engine' = builds engine ∧ materials engine' = materials engine
  ∧ destroyed engine' = (destroyed engine ++ l.*2)%list
  ∧ instances engine' = instances engine.
Proof.
  revert engine. induction l as [|[k m] l IH]; intros engine; cbn.
  - by rewrite app_nil_r.
  - destruct (IH (Engine_destroy engine m)) as (-> & -> & -> & ->). cbn.
    by rewrite <- app_assoc.
Qed.

(** C6: after destroyMaterials the count is 0, the cache map and the
    registry are empty and every material that was cached has been handed to
    the engine for destruction; the next call, for any key, previously cached
    or not, builds exactly once, and when it returns the loader holds that
    one new material. *)
Theorem destroyMaterials_resets s config uvmap label :
  let s0 := destroyMaterials s in
  let c := (constrainMaterial config uvmap).1 in
  let u := (constrainMaterial config uvmap).2 in
  let r := (createMaterialInstance config uvmap label s0).1 in
  let s1 := (createMaterialInstance config uvmap label s0).2 in
  getMaterialsCount s0 = 0%nat ∧ mCache s0 = ∅ ∧ mMaterials s0 = []
  ∧ destroyed (mEngine s0) = (destroyed (mEngine s) ++ (map_to_list (mCache s)).*2)%list
  ∧ builds (mEngine s0) = builds (mEngine s)
  ∧ builds (mEngine s1) = (builds (mEngine s0) ++ [configureBuilder c u label])%list
  ∧ (∀ m engine, createMaterial (mEngine s0) c u label = (Ok m, engine) →
       inRange c → ∃ mi, r = Ok mi)
  ∧ (∀ mi, r = Ok mi →
       getMaterialsCount s1 = 1%nat
       ∧ mCache s1 = {[ c := instanceOf mi ]}
       ∧ materials (mEngine s1)
         = (materials (mEngine s) ++ [BuiltPackage (configureBuilder c u label)])%list).
Proof.
  intros s0 c u r s1.
  destruct (foldl_Engine_destroy (map_to_list (mCache s)) (mEngine s))
    as (Hbuilds & Hmaterials & Hdestroyed & _).
  do 5 (split; [done|]).
  assert (constrainMaterial config uvmap = (c, u)) as Hc
    by (subst c u; by destruct (constrainMaterial config uvmap)).
  assert (mCache s0 !! c = None) as Hlk by done.
  assert (createMaterialInstance config uvmap label s0 = (r, s1)) as Hcall
    by (subst r s1; by destruct (createMaterialInstance config uvmap label s0)).
  clearbody c u r s1.
  destruct (createMaterial (mEngine s0) c u label) as [[m|e] engine] eqn:Hcreate.
  - destruct (createMaterialInstance_miss_Ok _ _ _ _ _ _ _ _ _ _ Hc Hlk Hcreate Hcall)
      as (Hcache & Hmats & _ & Hbuilds1 & Hmaterials1 & _ & _ & Hout).
    apply createMaterial_inv in Hcreate as (Hb & _ & _ & _ & Hm).
    split; [congruence|]. split.
    + intros ? ? [= <- <-] Hrange. destruct r as [mi|e]; [eauto|].
      by destruct Hout as [_ []].
    + intros mi ->. destruct Hout as [-> _]. unfold getMaterialsCount.
      rewrite Hmats, Hcache, Hmaterials1, Hm. cbn. rewrite Hmaterials.
      by rewrite insert_empty.
  - destruct (createMaterialInstance_miss_Throw _ _ _ _ _ _ _ _ _ _ Hc Hlk Hcreate Hcall)
      as [-> ->].
    apply createMaterial_inv in Hcreate as (Hb & _).
    split; [done|]. split; [discriminate|]. discriminate.
Qed.


(** ** Loaders in use: what every operation keeps *)

(** One call: either the cache and the engine's materials are as before, or
    the key was missing and one material was built and cached. *)
Lemma createMaterialInstance_step config uvmap label s :
  let c := (constrainMaterial config uvmap).1 in
  let u := (constrainMaterial config uvmap).2 in
  let s' := (createMaterialInstance config uvmap label s).2 in
  mMaterial s' = mMaterial s
  ∧ destroyed (mEngine s') = destroyed (mEngine s)
  ∧ ((mCache s' = mCache s ∧ mMaterials s' = mMaterials s
      ∧ materials (mEngine s') = materials (mEngine s))
     ∨ (mCache s !! c = None
        ∧ mCache s' = <[c := length (materials (mEngine s))]> (mCache s)
        ∧ mMaterials s' = (mMaterials s ++ [length (materials (mEngine s))])%list
        ∧ materials (mEngine s')
          = (materials (mEngine s) ++ [BuiltPackage (configureBuilder c u label)])%list)).
Proof.
  intros c u s'.
  assert (constrainMaterial config uvmap = (c, u)) as Hc
    by (subst c u; by destruct (constrainMaterial config uvmap)).
  assert (∃ r, createMaterialInstance config uvmap label s = (r, s')) as [r Hcall]
    by (subst s'; destruct (createMaterialInstance config uvmap label s); eauto).
  clearbody c u s'.
  destruct (mCache s !! c) as [m|] eqn:Hlk.
  - destruct (createMaterialInstance_hit _ _ _ _ _ _ _ _ _ Hc Hlk Hcall)
      as (? & ? & ? & _ & ? & ? & _).
    split; [done|]. split; [done|]. by left.
  - destruct (createMaterial (mEngine s) c u label) as [[m|e] engine] eqn:Hcreate.
    + destruct (createMaterialInstance_miss_Ok _ _ _ _ _ _ _ _ _ _ Hc Hlk Hcreate Hcall)
        as (Hcache & Hmats & ? & _ & Hmaterials & Hdestroyed & _).
      apply createMaterial_inv in Hcreate as (_ & Hd & _ & -> & Hm).
      split; [done|]. split; [congruence|]. right.
      rewrite Hmaterials, Hm. done.
    + destruct (createMaterialInstance_miss_Throw _ _ _ _ _ _ _ _ _ _ Hc Hlk Hcreate Hcall)
        as [_ ->].
      apply createMaterial_inv in Hcreate as (_ & Hd & _ & _ & Hm).
      cbn. split; [done|]. split; [done|]. by left.
Qed.

Lemma coherent_cached_lt s k m :
  coherent s → mCache s !! k = Some m → (m < length (materials (mEngine s)))%nat.
Proof.
  intros (_ & _ & Hbuilt & _) Hk.
  destruct (Hbuilt k m Hk) as (_ & u & name & Hm).
  by apply lookup_lt_Some in Hm.
Qed.

Lemma elem_of_cache_values (cache : gmap MaterialKey Material) (m : Material) :
  m ∈ (map_to_list cache).*2 ↔ ∃ k, cache !! k = Some m.
Proof.
  rewrite list_elem_of_fmap. split.
  - intros ([k m'] & -> & Hin). exists k. by apply elem_of_map_to_list.
  - intros [k Hk]. exists (k, m). split; [done|]. by apply elem_of_map_to_list.
Qed.

Lemma coherent_registered s m :
  coherent s → m ∈ mMaterials s ↔ ∃ k, mCache s !! k = Some m.
Proof. intros (Hperm & _). by rewrite Hperm, elem_of_cache_values. Qed.

Lemma coherent_new engine : Engine_wf engine → coherent (UbershaderLoader_new engine).
Proof.
  intros [Hnodup Hlt]. unfold coherent, UbershaderLoader_new. cbn.
  rewrite map_to_list_empty. repeat split; try done.
  - constructor.
  - apply list_lookup_middle. done.
  - intros Hin. apply Hlt in Hin. lia.
  - intros m Hin. cbn in *. apply Hlt in Hin. rewrite length_app. cbn. lia.
Qed.

Lemma coherent_createMaterialInstance config uvmap label s :
  coherent s → coherent (createMaterialInstance config uvmap label s).2.
Proof.
  intros Hs.
  destruct (createMaterialInstance_step config uvmap label s)
    as (HmMaterial & Hdestroyed & Hstep).
  pose proof Hs as (Hperm & Hnodup & Hbuilt & Hresource & Hlive & Hwf & Hlt).
  unfold coherent, Engine_wf. rewrite HmMaterial, Hdestroyed.
  destruct Hstep as [(-> & -> & ->)|(Hlk & -> & -> & ->)]; [done|].
  set (m := length (materials (mEngine s))).
  assert (m ∉ destroyed (mEngine s)) as Hfresh.
  { intros Hin. apply Hlt in Hin. lia. }
  repeat split.
  - rewrite map_to_list_insert by done. rewrite fmap_cons. cbn.
    rewrite <- Hperm. by rewrite Permutation_app_comm.
  - apply NoDup_app. repeat split; [done| |apply NoDup_singleton].
    intros m' Hin ->%list_elem_of_singleton.
    apply (coherent_registered s) in Hin as [k Hk]; [|done].
    apply (coherent_cached_lt s) in Hk; [|done]. lia.
  - apply lookup_insert_Some in H as [[_ <-]|[_ Hk]]; [done|].
    by apply Hbuilt in Hk as [? _].
  - apply lookup_insert_Some in H as [[<- <-]|[_ Hk]].
    + eexists _, _. by apply list_lookup_middle.
    + apply Hbuilt in Hk as (_ & u & name & Hk). exists u, name.
      by apply lookup_app_l_Some.
  - by apply lookup_app_l_Some.
  - done.
  - done.
  - intros m' Hin. apply Hlt in Hin. rewrite length_app. lia.
Qed.

Lemma coherent_destroyMaterials s : coherent s → coherent (destroyMaterials s).
Proof.
  intros Hs.
  pose proof Hs as (Hperm & Hnodup & Hbuilt & Hresource & Hlive & Hwf & Hlt).
  destruct (foldl_Engine_destroy (map_to_list (mCache s)) (mEngine s))
    as (_ & Hmaterials & Hdestroyed & _).
  unfold coherent, Engine_wf, destroyMaterials. cbn.
  rewrite Hmaterials, Hdestroyed, map_to_list_empty.
  split; [done|]. split; [constructor|]. split; [done|]. split; [done|].
  split; [|split].
  - apply not_elem_of_app. split; [done|].
    intros (k & Hk)%elem_of_cache_values.
    apply Hbuilt in Hk as (_ & u & name & Hk). congruence.
  - apply NoDup_app. split; [done|]. split; [|by rewrite <- Hperm].
    intros m Hin (k & Hk)%elem_of_cache_values.
    by apply Hbuilt in Hk as [? _].
  - intros m [Hin|(k & Hk)%elem_of_cache_values]%elem_of_app; [auto|].
    by apply (coherent_cached_lt s) in Hk.
Qed.

Lemma reachable_coherent s : reachable s → coherent s.
Proof.
  induction 1;
    auto using coherent_new, coherent_createMaterialInstance, coherent_destroyMaterials.
Qed.

(** ** Loaders in use: the registry, the cache and the engine *)

(** X1: in every loader a client can hold, getMaterialsCount is the number
    of cache entries, getMaterials lists no material twice, and a material is
    listed exactly when some key is cached under it. *)
Theorem registry_matches_cache s :
  reachable s →
  getMaterialsCount s = size (mCache s)
  ∧ NoDup (getMaterials s)
  ∧ ∀ m, m ∈ getMaterials s ↔ ∃ k, mCache s !! k = Some m.
Proof.
  intros Hs%reachable_coherent. pose proof Hs as (Hperm & Hnodup & _).
  split; [|split; [done|]].
  - unfold getMaterialsCount. by rewrite Hperm, length_fmap, length_map_to_list.
  - intros m. by apply coherent_registered.
Qed.

(** X2: no material is shared between two keys: keys cached under the same
    material are equal. *)
Theorem cache_injective s k1 k2 m :
  reachable s → mCache s !! k1 = Some m → mCache s !! k2 = Some m → k1 = k2.
Proof.
  intros (Hperm & Hnodup & _)%reachable_coherent H1 H2.
  rewrite Hperm in Hnodup.
  apply elem_of_map_to_list, list_elem_of_lookup in H1 as [i Hi].
  apply elem_of_map_to_list, list_elem_of_lookup in H2 as [j Hj].
  assert (i = j) as ->.
  { apply (NoDup_lookup _ i j m Hnodup); rewrite list_lookup_fmap.
    - by rewrite Hi.
    - by rewrite Hj. }
  congruence.
Qed.

(** X3: the material of a returned instance is cached under the call's
    normalized key, is listed by getMaterials, and was built from a builder
    configured for that very key (under the label and UV map of the call that
    built it). *)
Theorem instance_material_built_for_key s config uvmap label mi s' :
  reachable s →
  createMaterialInstance config uvmap label s = (Ok mi, s') →
  let c := (constrainMaterial config uvmap).1 in
  mCache s' !! c = Some (instanceOf mi)
  ∧ instanceOf mi ∈ getMaterials s'
  ∧ ∃ u name, materials (mEngine s') !! instanceOf mi
              = Some (BuiltPackage (configureBuilder c u name)).
Proof.
  intros Hs Hcall c.
  assert (coherent s') as Hs'.
  { apply reachable_coherent.
    replace s' with (createMaterialInstance config uvmap label s).2 by by rewrite Hcall.
    by constructor. }
  apply returned_key_is_cached in Hcall as (Hcached & _). fold c in Hcached.
  split; [done|]. split.
  - apply coherent_registered; eauto.
  - destruct Hs' as (_ & _ & Hbuilt & _). by apply Hbuilt in Hcached as [_ ?].
Qed.

(** X4: a returned instance never belongs to a destroyed material, and never
    to the material the constructor loads from the packaged ubershader; that
    material keeps its handle through every call and is never destroyed. *)
Theorem instance_material_live s config uvmap label mi s' :
  reachable s →
  createMaterialInstance config uvmap label s = (Ok mi, s') →
  (instanceOf mi ∉ destroyed (mEngine s'))
  ∧ instanceOf mi ≠ mMaterial s'
  ∧ mMaterial s' = mMaterial s
  ∧ materials (mEngine s') !! mMaterial s' = Some GLTFRESOURCES_UBERSHADER_DATA
  ∧ (mMaterial s' ∉ destroyed (mEngine s')).
Proof.
  intros Hs Hcall.
  assert (coherent s') as Hs'.
  { apply reachable_coherent.
    replace s' with (createMaterialInstance config uvmap label s).2 by by rewrite Hcall.
    by constructor. }
  pose proof (createMaterialInstance_step config uvmap label s) as Hstep.
  rewrite Hcall in Hstep. destruct Hstep as (HmMaterial & _).
  apply returned_key_is_cached in Hcall as (Hcached & _).
  destruct Hs' as (_ & _ & Hbuilt & Hresource & Hlive & _).
  apply Hbuilt in Hcached as (Hnot & u & name & Hm).
  repeat split; try done. congruence.
Qed.

(** X5: destroyMaterials hands to the engine exactly the materials that
    getMaterials listed, each once and none that was destroyed before; it
    does not destroy the constructor's material and builds nothing. *)
Theorem destroyMaterials_destroys_registry s :
  reachable s →
  let s0 := destroyMaterials s in
  (destroyed (mEngine s0) ≡ₚ (destroyed (mEngine s) ++ getMaterials s)%list)
  ∧ NoDup (destroyed (mEngine s0))
  ∧ (mMaterial s0 ∉ destroyed (mEngine s0))
  ∧ materials (mEngine s0) = materials (mEngine s)
  ∧ builds (mEngine s0) = builds (mEngine s)
  ∧ instances (mEngine s0) = instances (mEngine s).
Proof.
  intros Hs s0.
  assert (coherent s0) as (_ & _ & _ & _ & Hlive & Hnodup & _)
    by by apply coherent_destroyMaterials, reachable_coherent.
  apply reachable_coherent in Hs as (Hperm & _).
  destruct (foldl_Engine_destroy (map_to_list (mCache s)) (mEngine s))
    as (Hbuilds & Hmaterials & Hdestroyed & Hinstances).
  repeat split; try done.
  unfold getMaterials. rewrite Hperm. subst s0. cbn. by rewrite Hdestroyed.
Qed.

(** X6: destroyMaterials twice is destroyMaterials once: the second call
    finds nothing to destroy. *)
Theorem destroyMaterials_idempotent s :
  destroyMaterials (destroyMaterials s) = destroyMaterials s.
Proof. unfold destroyMaterials. cbn. by rewrite map_to_list_empty. Qed.

(** ** Calls that throw *)

(** X7: [getUvIndex] throws exactly when the channel is enabled and its UV
    index is 8 or more, and then it throws out_of_range. *)
Theorem getUvIndex_throws_iff (uvmap : UvMap) (srcIndex : N) (hasTexture : bool) (e : error) :
  getUvIndex uvmap srcIndex hasTexture = Throw e
  ↔ e = out_of_range ∧ hasTexture = true ∧ (8 ≤ srcIndex)%N.
Proof.
  split; [apply getUvIndex_Throw|].
  intros (-> & -> & Hge). unfold getUvIndex.
  destruct (UvMap_at uvmap srcIndex) as [slot|] eqn:Hat; [|done].
  assert (srcIndex < 8)%N by (apply (UvMap_at_is_Some uvmap); eauto). lia.
Qed.

(** X8: a call returns an instance only if every channel its normalized key
    enables names one of the eight UV sets; when the key is cached, that is
    also enough. *)
Theorem returns_iff_in_range config uvmap label s :
  let c := (constrainMaterial config uvmap).1 in
  let r := (createMaterialInstance config uvmap label s).1 in
  (isOk r = true → inRange c)
  ∧ (is_Some (mCache s !! c) → inRange c → isOk r = true).
Proof.
  intros c r. split.
  - destruct (createMaterialInstance config uvmap label s) as [[mi|e] s'] eqn:Hcall;
      [|discriminate].
    intros _. by apply returned_key_is_cached in Hcall as (_ & ? & _).
  - intros [m Hm] Hrange.
    destruct (cached_key_returns config uvmap label s m Hm Hrange)
      as (mi & s' & Hcall & _).
    subst r. by rewrite Hcall.
Qed.

(** X9: when an enabled channel of the normalized key has a UV index of 8
    or more and the key is not cached, the call throws out_of_range only
    after the material has been built, cached and registered and an instance
    has been created: the count has grown by one and the instance is lost. *)
Theorem out_of_range_after_caching config uvmap label s m :
  let c := (constrainMaterial config uvmap).1 in
  let u := (constrainMaterial config uvmap).2 in
  mCache s !! c = None →
  (createMaterial (mEngine s) c u label).1 = Ok m →
  ¬ inRange c →
  ∃ s',
    createMaterialInstance config uvmap label s = (Throw out_of_range, s')
    ∧ mCache s' !! c = Some m
    ∧ getMaterialsCount s' = S (getMaterialsCount s)
    ∧ getMaterials s' = (getMaterials s ++ [m])%list
    ∧ instances (mEngine s') = S (instances (mEngine s)).
Proof.
  intros c u Hlk Hcreate Hrange.
  assert (constrainMaterial config uvmap = (c, u)) as Hc
    by (subst c u; by destruct (constrainMaterial config uvmap)).
  clearbody c u.
  destruct (createMaterial (mEngine s) c u label) as [r engine] eqn:Hbuilt.
  cbn in Hcreate. subst r.
  destruct (createMaterialInstance config uvmap label s) as [r s'] eqn:Hcall.
  destruct (createMaterialInstance_miss_Ok _ _ _ _ _ _ _ _ _ _ Hc Hlk Hbuilt Hcall)
    as (Hcache & Hmats & _ & _ & _ & _ & Hinstances & Hout).
  apply createMaterial_inv in Hbuilt as (_ & _ & Hi & _).
  destruct r as [mi|e]; cbn in Hout; [by destruct Hout|].
  destruct Hout as [-> _]. exists s'.
  unfold getMaterialsCount, getMaterials.
  rewrite Hcache, Hmats, lookup_insert_eq, length_app, Hinstances, Hi. cbn.
  repeat split; try done. lia.
Qed.

(** X10: a rejected build is not remembered: the call leaves the key
    uncached, and a second call with the same arguments builds the same
    builder again and fails again. *)
Theorem failed_build_is_retried config uvmap label s :
  let c := (constrainMaterial config uvmap).1 in
  let u := (constrainMaterial config uvmap).2 in
  mCache s !! c = None →
  (∀ engine, build_ok engine (configureBuilder c u label) = false) →
  let s1 := (createMaterialInstance config uvmap label s).2 in
  let s2 := (createMaterialInstance config uvmap label s1).2 in
  (createMaterialInstance config uvmap label s).1 = Throw CompilationFailure
  ∧ (createMaterialInstance config uvmap label s1).1 = Throw CompilationFailure
  ∧ mCache s2 = mCache s
  ∧ getMaterials s2 = getMaterials s
  ∧ builds (mEngine s2)
    = (builds (mEngine s) ++ [configureBuilder c u label; configureBuilder c u label])%list.
Proof.
  intros c u Hlk Hreject.
  assert (constrainMaterial config uvmap = (c, u)) as Hc
    by (subst c u; by destruct (constrainMaterial config uvmap)).
  clearbody c u.
  assert (∀ s0, mCache s0 !! c = None →
            (createMaterialInstance config uvmap label s0).1 = Throw CompilationFailure
            ∧ mCache (createMaterialInstance config uvmap label s0).2 = mCache s0
            ∧ mMaterials (createMaterialInstance config uvmap label s0).2 = mMaterials s0
            ∧ builds (mEngine (createMaterialInstance config uvmap label s0).2)
              = (builds (mEngine s0) ++ [configureBuilder c u label])%list) as Hone.
  { intros s0 Hmiss.
    destruct (createMaterialInstance config uvmap label s0) as [r s'] eqn:Hcall.
    destruct (createMaterial (mEngine s0) c u label) as [[m|e] engine] eqn:Hcreate.
    - unfold createMaterial, build in Hcreate. by rewrite Hreject in Hcreate.
    - destruct (createMaterialInstance_miss_Throw _ _ _ _ _ _ _ _ _ _
                  Hc Hmiss Hcreate Hcall) as [-> ->].
      apply createMaterial_inv in Hcreate as (Hb & _ & _ & -> & _). done. }
  intros s1 s2.
  destruct (Hone s Hlk) as (Hr1 & Hcache1 & Hmats1 & Hbuilds1). fold s1 in Hcache1, Hmats1, Hbuilds1.
  assert (mCache s1 !! c = None) as Hlk1 by by rewrite Hcache1.
  destruct (Hone s1 Hlk1) as (Hr2 & Hcache2 & Hmats2 & Hbuilds2).
  fold s2 in Hcache2, Hmats2, Hbuilds2.
  unfold getMaterials.
  rewrite Hcache2, Hmats2, Hbuilds2, Hcache1, Hmats1, Hbuilds1, <- app_assoc.
  done.
Qed.

(** X11: a call creates exactly one instance unless the build fails, in
    which case it creates none; this holds also when the call then throws
    out_of_range. *)
Theorem one_instance_per_call config uvmap label s :
  let r := (createMaterialInstance config uvmap label s).1 in
  let s' := (createMaterialInstance config uvmap label s).2 in
  instances (mEngine s') =
    match r with
    | Throw CompilationFailure => instances (mEngine s)
    | _ => S (instances (mEngine s))
    end.
Proof.
  intros r s'.
  destruct (constrainMaterial config uvmap) as [c u] eqn:Hc.
  assert (createMaterialInstance config uvmap label s = (r, s')) as Hcall
    by (subst r s'; by destruct (createMaterialInstance config uvmap label s)).
  clearbody r s'.
  destruct (mCache s !! c) as [m|] eqn:Hlk.
  - destruct (createMaterialInstance_hit _ _ _ _ _ _ _ _ _ Hc Hlk Hcall)
      as (_ & _ & _ & _ & _ & _ & Hi & Hout).
    destruct r as [mi|[]]; try done. by destruct Hout.
  - destruct (createMaterial (mEngine s) c u label) as [[m|e] engine] eqn:Hcreate.
    + destruct (createMaterialInstance_miss_Ok _ _ _ _ _ _ _ _ _ _ Hc Hlk Hcreate Hcall)
        as (_ & _ & _ & _ & _ & _ & Hi & Hout).
      apply createMaterial_inv in Hcreate as (_ & _ & Hi' & _).
      destruct r as [mi|[]]; try congruence. by destruct Hout.
    + destruct (createMaterialInstance_miss_Throw _ _ _ _ _ _ _ _ _ _ Hc Hlk Hcreate Hcall)
        as [-> ->].
      apply createMaterial_inv in Hcreate as (_ & _ & Hi' & -> & _). done.
Qed.

(** ** What is built, and what is bound *)

(** X12: whatever the key, the builder is named after the label, keeps UVs
    unflipped, carries the shader text, and requires UV0, UV1 and COLOR, in
    that order; it is double sided as the key says and unlit exactly when the
    key is. *)
Theorem builder_settings (config : MaterialKey) (uvmap : UvMap) (name : string) :
  let builder := configureBuilder config uvmap name in
  MaterialBuilder.mName builder = Some name
  ∧ MaterialBuilder.mFlipUV builder = Some false
  ∧ MaterialBuilder.mMaterialCode builder = Some (shaderFromKey config)
  ∧ MaterialBuilder.mRequiredAttributes builder = [UV0; UV1; COLOR]
  ∧ MaterialBuilder.mDoubleSided builder = Some (doubleSided config)
  ∧ MaterialBuilder.mShading builder = Some (if unlit config then UNLIT else LIT).
Proof.
  unfold configureBuilder. destruct (alphaMode config); repeat split; reflexivity.
Qed.

(** X13: the mask threshold is set exactly for MASK and depth write exactly
    for BLEND; for the other modes the builder keeps the backend's default. *)
Theorem threshold_and_depthWrite_set_iff (config : MaterialKey) (uvmap : UvMap)
    (name : string) :
  let builder := configureBuilder config uvmap name in
  (is_Some (MaterialBuilder.mMaskThreshold builder) ↔ alphaMode config = MASK)
  ∧ (is_Some (MaterialBuilder.mDepthWrite builder) ↔ alphaMode config = BLEND).
Proof.
  unfold configureBuilder.
  destruct (alphaMode config); cbn; (split; split; intros H; try done);
    by (destruct H as [? [=]]) || eauto.
Qed.

(** X14: the UV map has no part in what is built: [createMaterial] gives
    the same outcome and leaves the engine the same for any two maps. *)
Theorem createMaterial_ignores_uvmap engine config (u1 u2 : UvMap) name :
  createMaterial engine config u1 name = createMaterial engine config u2 name.
Proof.
  unfold createMaterial.
  replace (configureBuilder config u2 name) with (configureBuilder config u1 name);
    [done|].
  unfold configureBuilder. destruct (alphaMode config); reflexivity.
Qed.

(** X15: when the normalized key is cached, the label has no effect at all:
    the call returns the same instance and leaves the same loader for any two
    labels, so a material keeps the name of the call that built it. *)
Theorem cached_call_ignores_label config uvmap (label1 label2 : string) s :
  is_Some (mCache s !! (constrainMaterial config uvmap).1) →
  createMaterialInstance config uvmap label1 s
  = createMaterialInstance config uvmap label2 s.
Proof.
  destruct (constrainMaterial config uvmap) as [c u] eqn:Hc. cbn. intros [m Hm].
  unfold createMaterialInstance. rewrite Hc.
  unfold bind, find. cbn beta iota. by rewrite Hm.
Qed.

(** X16: every parameter set on a returned instance is declared by the
    material, with the type of the value bound; the declared names are
    pairwise distinct; the five texture samplers are declared and not
    bound. *)
Theorem bound_parameters_declared config uvmap label s mi s' :
  createMaterialInstance config uvmap label s = (Ok mi, s') →
  let declared :=
    MaterialBuilder.mParameters
      (configureBuilder (constrainMaterial config uvmap).1
                        (constrainMaterial config uvmap).2 label) in
  (∀ name v, parameters mi !! name = Some v → (parameterType v, name) ∈ declared)
  ∧ NoDup declared.*2
  ∧ ∀ p, p ∈ samplerParameters → p ∈ declared ∧ parameters mi !! p.2 = None.
Proof.
  intros Hcall declared. subst declared.
  destruct (constrainMaterial config uvmap) as [c u] eqn:Hc.
  destruct (createMaterialInstance_Ok_parameters _ _ _ _ _ _ _ _ Hc Hcall)
    as (i & _ & Hmi).
  rewrite configureBuilder_mParameters, Hmi. split; [|split].
  - intros name v H.
    repeat (apply lookup_insert_Some in H as [[<- <-]|[_ H]];
            [cbn; repeat first [apply list_elem_of_here|apply list_elem_of_further]|]).
    by rewrite lookup_empty in H.
  - cbn. by apply (bool_decide_unpack _).
  - intros p Hp. unfold samplerParameters in Hp.
    repeat (apply elem_of_cons in Hp as [->|Hp]);
      [split; [repeat first [apply list_elem_of_here|apply list_elem_of_further]
              |reflexivity].. |].
    by apply elem_of_nil in Hp.
Qed.

(** X17: when the entries of the normalized UV map are slots (0, 1 or 2),
    every index bound on a returned instance is -1, 0 or 1: the "no texture"
    mark or a position in the shader's two-element uvs array. *)
Theorem bound_indices_are_slots config uvmap label s mi s' :
  (∀ srcIndex slot,
     UvMap_at (constrainMaterial config uvmap).2 srcIndex = Some slot → (slot ≤ 2)%N) →
  createMaterialInstance config uvmap label s = (Ok mi, s') →
  ∀ ch : Channel,
    ∃ i, parameters mi !! indexName ch = Some (PInt i) ∧ (-1 ≤ i ≤ 1)%Z.
Proof.
  intros Hslots Hcall ch.
  destruct (constrainMaterial config uvmap) as [c u] eqn:Hc. cbn in Hslots.
  destruct (createMaterialInstance_Ok_parameters _ _ _ _ _ _ _ _ Hc Hcall)
    as (i & Hi & ->).
  exists (i ch). split; [by destruct ch|].
  specialize (Hi ch). apply getUvIndex_Ok in Hi.
  destruct (hasTexture ch c); [|lia].
  destruct Hi as (slot & Hslot & ->). apply Hslots in Hslot. lia.
Qed.

(** ** Sequences of calls *)

(** X18: a call never removes or changes a cache entry, a registry entry or
    a material of the engine, and never destroys anything; it adds at most
    one cache entry. *)
Theorem call_only_grows config uvmap label s :
  let s' := (createMaterialInstance config uvmap label s).2 in
  mCache s ⊆ mCache s'
  ∧ getMaterials s `prefix_of` getMaterials s'
  ∧ materials (mEngine s) `prefix_of` materials (mEngine s')
  ∧ destroyed (mEngine s') = destroyed (mEngine s)
  ∧ (size (mCache s') ≤ S (size (mCache s)))%nat.
Proof.
  intros s'.
  destruct (createMaterialInstance_step config uvmap label s) as (_ & Hdestroyed & Hstep).
  fold s' in Hdestroyed, Hstep. unfold getMaterials.
  destruct Hstep as [(-> & -> & ->)|(Hlk & -> & -> & ->)].
  - do 4 (split; [done|]). lia.
  - split; [|split; [|split; [|split; [done|]]]].
    + by apply insert_subseteq.
    + by apply prefix_app_r.
    + by apply prefix_app_r.
    + rewrite map_size_insert_None by done. lia.
Qed.

(** X19: over any sequence of calls, the materials the engine gains are as
    many as the entries the cache gains, and every new entry is under the
    normalized key of one of the calls: at most one material is built and
    kept per distinct key. *)
Theorem run_builds_once_per_key calls s :
  let s' := run calls s in
  mCache s ⊆ mCache s'
  ∧ dom (mCache s') ⊆ dom (mCache s) ∪ list_to_set (normalizedKeys calls)
  ∧ (length (materials (mEngine s')) + size (mCache s)
     = length (materials (mEngine s)) + size (mCache s'))%nat.
Proof.
  revert s. induction calls as [|[[config uvmap] label] calls IH]; intros s; cbn.
  - split; [done|]. split; [apply union_subseteq_l|lia].
  - destruct (IH (createMaterialInstance config uvmap label s).2) as (Hsub & Hdom & Hlen).
    destruct (createMaterialInstance_step config uvmap label s) as (_ & _ & Hstep).
    cbn in Hstep.
    destruct Hstep as [(Hcache & _ & Hmaterials)|(Hlk & Hcache & _ & Hmaterials)];
      rewrite Hcache in Hsub, Hdom, Hlen; rewrite Hmaterials in Hlen.
    + split; [done|]. split; [|lia].
      etrans; [exact Hdom|]. apply union_mono_l, union_subseteq_r.
    + split; [|split].
      * etrans; [by apply insert_subseteq|done].
      * rewrite dom_insert_L in Hdom. etrans; [exact Hdom|].
        by rewrite (comm_L (∪) {[_]} (dom _)), <- (assoc_L (∪)).
      * rewrite map_size_insert_None in Hlen by done.
        rewrite length_app in Hlen. cbn in Hlen. lia.
Qed.
End Loader.

(** ** The properties on the sample inputs *)

Lemma isOk_returns {A} (x : result A * UbershaderLoader) :
  isOk x.1 = true → ∃ a s', x = (Ok a, s').
Proof. destruct x as [[a|e] s']; [eauto|discriminate]. Qed.

Example getUvIndex_second_slot :
  getUvIndex [# 0; 0; 0; 2; 0; 0; 0; 0]%N 3 true = Ok 1.
Proof. reflexivity. Qed.

Example getUvIndex_beyond_map : getUvIndex sampleUvMap 8 true = Throw out_of_range.
Proof. reflexivity. Qed.

Example getUvIndex_disabled_beyond_map : getUvIndex sampleUvMap 200 false = Ok (-1).
Proof. reflexivity. Qed.

Example constrainMaterial_drops_normal :
  (details.constrainMaterial sampleKeyWithNormal sampleUvMap).1 = sampleKey.
Proof. reflexivity. Qed.

Example constrainMaterial_clears_unread :
  details.constrainMaterial sampleKeyWithNormal [# 1; 0; 2; 0; 0; 0; 0; 2]%N
  = (sampleKey, sampleUvMap).
Proof. reflexivity. Qed.

Example constrainMaterial_over_budget :
  hasBaseColorTexture
    (details.constrainMaterial sampleKey [# 3; 1; 0; 0; 0; 0; 0; 0]%N).1 = false
  ∧ (details.constrainMaterial sampleKey [# 3; 1; 0; 0; 0; 0; 0; 0]%N).2 = unusedUvMap.
Proof. split; reflexivity. Qed.

Lemma synthesis_deterministic_sample :
  sampleKey = sampleKey
  ∧ shaderFromKey sampleKey = shaderFromKey sampleKey
  ∧ MaterialBuilder.mParameters (configureBuilder sampleKey sampleUvMap "a")
    = MaterialBuilder.mParameters (configureBuilder sampleKey unusedUvMap "b").
Proof.
  split; [reflexivity|].
  destruct (synthesis_deterministic sampleKey sampleKey sampleUvMap unusedUvMap "a" "b"
              eq_refl) as (Hshader & _ & Hparameters & _).
  split; assumption.
Defined.

Lemma createMaterialInstance_binds_sample :
  ∃ mi s',
    createMaterialInstance details.constrainMaterial acceptAll
      sampleKeyWithNormal sampleUvMap "sample" freshLoader = (Ok mi, s')
    ∧ parameters mi !! "baseColorIndex" = Some (PInt 0)
    ∧ parameters mi !! "normalIndex" = Some (PInt (-1))
    ∧ parameters mi !! "normalUvMatrix" = Some (PMat3 mat3f_identity)
    ∧ parameters mi !! "blendEnabled" = Some (PBool false).
Proof.
  destruct (isOk_returns
              (createMaterialInstance details.constrainMaterial acceptAll
                 sampleKeyWithNormal sampleUvMap "sample" freshLoader))
    as (mi & s' & Hcall); [vm_compute; reflexivity|].
  exists mi, s'. split; [exact Hcall|].
  pose proof (createMaterialInstance_binds _ _ _ _ _ _ _ _ Hcall) as Hbinds.
  cbn in Hbinds. destruct Hbinds as (Hindex & Hmatrix & Hblend).
  pose proof (Hindex BaseColor) as (slot & [= <-] & HbaseColor).
  pose proof (Hindex Normal) as Hnormal.
  pose proof (Hmatrix Normal) as HnormalMatrix.
  repeat split; assumption.
Defined.

Lemma createMaterialInstance_leaves_factors_sample :
  ∃ mi s',
    createMaterialInstance details.constrainMaterial acceptAll
      sampleKey sampleUvMap "sample" freshLoader = (Ok mi, s')
    ∧ size (parameters mi) = 11%nat
    ∧ parameters mi !! "baseColorFactor" = None
    ∧ parameters mi !! "emissiveFactor" = None.
Proof.
  destruct (isOk_returns
              (createMaterialInstance details.constrainMaterial acceptAll
                 sampleKey sampleUvMap "sample" freshLoader))
    as (mi & s' & Hcall); [vm_compute; reflexivity|].
  exists mi, s'. split; [exact Hcall|].
  destruct (createMaterialInstance_leaves_factors _ _ _ _ _ _ _ _ Hcall)
    as (_ & Hsize & Hfactors).
  split; [exact Hsize|]. split.
  - apply (Hfactors (MaterialBuilder.Uniform MaterialBuilder.FLOAT4, "baseColorFactor")).
    apply list_elem_of_here.
  - apply (Hfactors (MaterialBuilder.Uniform MaterialBuilder.FLOAT3, "emissiveFactor")).
    do 5 apply list_elem_of_further. apply list_elem_of_here.
Defined.

Lemma createMaterialInstance_in_range_sample :
  inRange (details.constrainMaterial sampleKey sampleUvMap).1
  ∧ getUvIndex sampleUvMap 0 true = Ok 0
  ∧ (createMaterialInstance details.constrainMaterial acceptAll
       sampleKey sampleUvMap "sample" freshLoader).1 ≠ Throw out_of_range.
Proof.
  assert (inRange (details.constrainMaterial sampleKey sampleUvMap).1) as Hrange
    by (intros []; cbn; (reflexivity || discriminate)).
  split; [exact Hrange|].
  pose proof (createMaterialInstance_in_range details.constrainMaterial acceptAll
                sampleKey sampleUvMap "sample" freshLoader Hrange) as H.
  cbn -[createMaterialInstance getUvIndex] in H. destruct H as [Hat Hcall].
  split; [|exact Hcall].
  destruct (Hat BaseColor) as (slot & [= <-] & Hindex). exact Hindex.
Defined.


Lemma compilation_failure_keeps_cache_sample :
  mCache freshLoader !! (details.constrainMaterial sampleKey sampleUvMap).1 = None
  ∧ ∃ s',
      createMaterialInstance details.constrainMaterial rejectAll
        sampleKey sampleUvMap "sample" freshLoader = (Throw CompilationFailure, s')
      ∧ mCache s' = mCache freshLoader ∧ mMaterials s' = mMaterials freshLoader.
Proof.
  assert (mCache freshLoader !! (details.constrainMaterial sampleKey sampleUvMap).1 = None)
    as Hmiss by reflexivity.
  split; [exact Hmiss|].
  destruct (compilation_failure_keeps_cache details.constrainMaterial rejectAll
              sampleKey sampleUvMap "sample" freshLoader Hmiss eq_refl)
    as (s' & Hcall & Hcache & Hmats & _).
  exists s'. repeat split; assumption.
Defined.

(** ** Loaders in use, on the sample inputs *)

Lemma freshLoader_reachable (build_ok : Engine → MaterialBuilder.t → bool) :
  reachable details.constrainMaterial build_ok freshLoader.
Proof.
  apply reachable_new. split; [constructor|].
  intros m Hin. by apply elem_of_nil in Hin.
Qed.

Lemma loadedOnce_reachable :
  reachable details.constrainMaterial acceptAll
    (loadedOnce details.constrainMaterial acceptAll).
Proof. apply reachable_createMaterialInstance, freshLoader_reachable. Qed.

Lemma registry_matches_cache_sample :
  reachable details.constrainMaterial acceptAll (loadedOnce details.constrainMaterial acceptAll)
  ∧ getMaterialsCount (loadedOnce details.constrainMaterial acceptAll) = size (mCache (loadedOnce details.constrainMaterial acceptAll))
  ∧ NoDup (getMaterials (loadedOnce details.constrainMaterial acceptAll)).
Proof.
  pose proof loadedOnce_reachable as Hs.
  split; [exact Hs|].
  destruct (registry_matches_cache details.constrainMaterial acceptAll _ Hs)
    as (Hcount & Hnodup & _).
  split; assumption.
Defined.

Lemma cache_injective_sample :
  reachable details.constrainMaterial acceptAll (loadedOnce details.constrainMaterial acceptAll)
  ∧ mCache (loadedOnce details.constrainMaterial acceptAll) !! sampleKey = Some 1%nat
  ∧ sampleKey = sampleKey.
Proof.
  pose proof loadedOnce_reachable as Hs.
  assert (mCache (loadedOnce details.constrainMaterial acceptAll) !! sampleKey = Some 1%nat)
    as Hk by (vm_compute; reflexivity).
  split; [exact Hs|]. split; [exact Hk|].
  exact (cache_injective details.constrainMaterial acceptAll _ sampleKey sampleKey 1%nat
           Hs Hk Hk).
Defined.

Lemma instance_material_built_for_key_sample :
  ∃ mi s',
    createMaterialInstance details.constrainMaterial acceptAll
      sampleKey sampleUvMap "sample" freshLoader = (Ok mi, s')
    ∧ mCache s' !! sampleKey = Some (instanceOf mi)
    ∧ instanceOf mi ∈ getMaterials s'.
Proof.
  destruct (isOk_returns
              (createMaterialInstance details.constrainMaterial acceptAll
                 sampleKey sampleUvMap "sample" freshLoader))
    as (mi & s' & Hcall); [vm_compute; reflexivity|].
  exists mi, s'. split; [exact Hcall|].
  destruct (instance_material_built_for_key details.constrainMaterial acceptAll
              freshLoader sampleKey sampleUvMap "sample" mi s'
              (freshLoader_reachable acceptAll) Hcall)
    as (Hcached & Hlisted & _).
  split; assumption.
Defined.

Lemma instance_material_live_sample :
  ∃ mi s',
    createMaterialInstance details.constrainMaterial acceptAll
      sampleKey sampleUvMap "sample" freshLoader = (Ok mi, s')
    ∧ (instanceOf mi ∉ destroyed (mEngine s'))
    ∧ instanceOf mi ≠ mMaterial s'.
Proof.
  destruct (isOk_returns
              (createMaterialInstance details.constrainMaterial acceptAll
                 sampleKey sampleUvMap "sample" freshLoader))
    as (mi & s' & Hcall); [vm_compute; reflexivity|].
  exists mi, s'. split; [exact Hcall|].
  destruct (instance_material_live details.constrainMaterial acceptAll
              freshLoader sampleKey sampleUvMap "sample" mi s'
              (freshLoader_reachable acceptAll) Hcall)
    as (Hlive & Hother & _).
  split; assumption.
Defined.

Lemma destroyMaterials_destroys_registry_sample :
  reachable details.constrainMaterial acceptAll (loadedOnce details.constrainMaterial acceptAll)
  ∧ (destroyed (mEngine (destroyMaterials (loadedOnce details.constrainMaterial acceptAll)))
     ≡ₚ (destroyed (mEngine (loadedOnce details.constrainMaterial acceptAll)) ++ getMaterials (loadedOnce details.constrainMaterial acceptAll))%list)
  ∧ NoDup (destroyed (mEngine (destroyMaterials (loadedOnce details.constrainMaterial acceptAll)))).
Proof.
  pose proof loadedOnce_reachable as Hs.
  split; [exact Hs|].
  destruct (destroyMaterials_destroys_registry details.constrainMaterial acceptAll _ Hs)
    as (Hperm & Hnodup & _).
  split; assumption.
Defined.

Lemma out_of_range_after_caching_sample :
  mCache freshLoader !! farKey = None
  ∧ ¬ inRange farKey
  ∧ ∃ s',
      createMaterialInstance keepMaterial acceptAll farKey sampleUvMap "far" freshLoader
      = (Throw out_of_range, s')
      ∧ mCache s' !! farKey = Some 1%nat
      ∧ getMaterialsCount s' = 1%nat.
Proof.
  assert (mCache freshLoader !! farKey = None) as Hmiss by reflexivity.
  assert (¬ inRange farKey) as Hfar.
  { intros H. specialize (H BaseColor eq_refl). cbn in H. lia. }
  split; [exact Hmiss|]. split; [exact Hfar|].
  destruct (out_of_range_after_caching keepMaterial acceptAll
              farKey sampleUvMap "far" freshLoader 1%nat Hmiss eq_refl Hfar)
    as (s' & Hcall & Hcached & Hcount & _).
  exists s'. repeat split; assumption.
Defined.

Lemma failed_build_is_retried_sample :
  mCache freshLoader !! (details.constrainMaterial sampleKey sampleUvMap).1 = None
  ∧ (createMaterialInstance details.constrainMaterial rejectAll
       sampleKey sampleUvMap "sample" freshLoader).1 = Throw CompilationFailure
  ∧ length (builds (mEngine
       (createMaterialInstance details.constrainMaterial rejectAll
          sampleKey sampleUvMap "sample"
          (createMaterialInstance details.constrainMaterial rejectAll
             sampleKey sampleUvMap "sample" freshLoader).2).2)) = 2%nat.
Proof.
  assert (mCache freshLoader !! (details.constrainMaterial sampleKey sampleUvMap).1 = None)
    as Hmiss by reflexivity.
  split; [exact Hmiss|].
  destruct (failed_build_is_retried details.constrainMaterial rejectAll
              sampleKey sampleUvMap "sample" freshLoader Hmiss (λ _, eq_refl))
    as (Hfirst & _ & _ & _ & Hbuilds).
  split; [exact Hfirst|]. by rewrite Hbuilds.
Defined.

Lemma cached_call_ignores_label_sample :
  is_Some (mCache (loadedOnce details.constrainMaterial acceptAll)
           !! (details.constrainMaterial sampleKeyWithNormal sampleUvMap).1)
  ∧ createMaterialInstance details.constrainMaterial acceptAll
      sampleKeyWithNormal sampleUvMap "second" (loadedOnce details.constrainMaterial acceptAll)
    = createMaterialInstance details.constrainMaterial acceptAll
        sampleKeyWithNormal sampleUvMap "third" (loadedOnce details.constrainMaterial acceptAll).
Proof.
  assert (is_Some (mCache (loadedOnce details.constrainMaterial acceptAll)
                     !! (details.constrainMaterial sampleKeyWithNormal sampleUvMap).1))
    as Hcached by (exists 1%nat; vm_compute; reflexivity).
  split; [exact Hcached|].
  exact (cached_call_ignores_label details.constrainMaterial acceptAll
           sampleKeyWithNormal sampleUvMap "second" "third" _ Hcached).
Defined.

Lemma bound_parameters_declared_sample :
  ∃ mi s',
    createMaterialInstance details.constrainMaterial acceptAll
      sampleKey sampleUvMap "sample" freshLoader = (Ok mi, s')
    ∧ parameters mi !! "baseColorMap" = None
    ∧ NoDup (MaterialBuilder.mParameters
               (configureBuilder sampleKey sampleUvMap "sample")).*2.
Proof.
  destruct (isOk_returns
              (createMaterialInstance details.constrainMaterial acceptAll
                 sampleKey sampleUvMap "sample" freshLoader))
    as (mi & s' & Hcall); [vm_compute; reflexivity|].
  exists mi, s'. split; [exact Hcall|].
  destruct (bound_parameters_declared details.constrainMaterial acceptAll
              sampleKey sampleUvMap "sample" freshLoader mi s' Hcall)
    as (_ & Hnodup & Hsamplers).
  split; [|exact Hnodup].
  apply (Hsamplers (MaterialBuilder.Sampler MaterialBuilder.SAMPLER_2D, "baseColorMap")).
  apply list_elem_of_here.
Defined.

Lemma bound_indices_are_slots_sample :
  (∀ srcIndex slot, UvMap_at sampleUvMap srcIndex = Some slot → (slot ≤ 2)%N)
  ∧ ∃ mi s',
      createMaterialInstance details.constrainMaterial acceptAll
        sampleKey sampleUvMap "sample" freshLoader = (Ok mi, s')
      ∧ ∃ i, parameters mi !! "baseColorIndex" = Some (PInt i) ∧ (-1 ≤ i ≤ 1)%Z.
Proof.
  assert (∀ srcIndex slot, UvMap_at sampleUvMap srcIndex = Some slot → (slot ≤ 2)%N)
    as Hslots.
  { intros srcIndex slot Hat. apply list_elem_of_lookup_2 in Hat. cbn in Hat.
    repeat (apply elem_of_cons in Hat as [->|Hat]); try lia.
    by apply elem_of_nil in Hat. }
  split; [exact Hslots|].
  destruct (isOk_returns
              (createMaterialInstance details.constrainMaterial acceptAll
                 sampleKey sampleUvMap "sample" freshLoader))
    as (mi & s' & Hcall); [vm_compute; reflexivity|].
  exists mi, s'. split; [exact Hcall|].
  exact (bound_indices_are_slots details.constrainMaterial acceptAll
           sampleKey sampleUvMap "sample" freshLoader mi s' Hslots Hcall BaseColor).
Defined.
